(** * F5 BIG-IP Firewall Shell 2G: the driver as a dispatch layer

    A shallow embedding of [src/driver.py].  The driver owns one field
    ([_cli]) and one lock; everything else it does is a call to a collaborator
    imported from the CloudShell and F5 packages.  Those collaborators are not
    part of the repository, so they are left to an arbitrary environment: each
    call made by the driver is answered by the environment, either with a
    value or with an exception.  What each method does is then read off the
    log of interactions that its run leaves behind. *)

From Stdlib Require Import ZArith List String Bool Lia.
Import ListNotations.
Open Scope string_scope.
Open Scope list_scope.

Set Implicit Arguments.

(** ** Values exchanged with the platform *)

(** Python values that cross the driver's boundary: the arguments the
    platform supplies and the answers the runners give back. *)
Inductive pyval : Type :=
| PyNone
| PyBool (b : bool)
| PyInt (z : Z)
| PyStr (s : string)
| PyObj (id : nat).

(** Python's truth value: [None], [False], [0] and the empty string are
    false; an object without [__bool__] or [__len__] is true. *)
Definition truthy (v : pyval) : bool :=
  match v with
  | PyNone => false
  | PyBool b => b
  | PyInt z => negb (Z.eqb z 0)
  | PyStr s => negb (String.eqb s "")
  | PyObj _ => true
  end.

(** [a or b] *)
Definition py_or (a b : pyval) : pyval := if truthy a then a else b.

(** Exceptions are opaque: only their identity matters here. *)
Inductive exn : Type := Exn (name : string).

(** ** Objects of the host framework

    Each is a handle handed out by the environment.  The resource
    configuration also carries the one attribute the driver reads. *)
Record Context : Type := mkContext { context_id : nat }.
Record Logger : Type := mkLogger { logger_id : nat }.
Record Api : Type := mkApi { api_id : nat }.
Record Cli : Type := mkCli { cli_id : nat }.
Record ResourceConfig : Type := mkResourceConfig {
  config_id : nat;
  sessions_concurrency_limit : pyval
}.
Record CliHandler : Type := mkCliHandler { cli_handler_id : nat }.
Record SnmpHandler : Type := mkSnmpHandler { snmp_handler_id : nat }.
Record AutoloadOperations : Type := mkAutoloadOperations { autoload_id : nat }.
Record SendCommandOperations : Type := mkSendCommandOperations { send_command_id : nat }.
Record ConfigurationOperations : Type := mkConfigurationOperations { configuration_id : nat }.
Record FirmwareOperations : Type := mkFirmwareOperations { firmware_id : nat }.
Record StateOperations : Type := mkStateOperations { state_id : nat }.

(** ** Calls that leave the driver

    One constructor per imported function, constructor or runner method that
    [driver.py] invokes, indexed by the type of what it returns.  [int] is
    Python's builtin conversion. *)
Inductive call : Type -> Type :=
| get_logger_with_thread_id (context : Context) : call Logger
| create_firewall_resource_from_context
    (shell_name : string) (supported_os : list string) (context : Context)
    : call ResourceConfig
| get_api (context : Context) : call Api
| int (v : pyval) : call Z
| get_cli (session_pool_size : Z) : call Cli
| parse_custom_commands (command : pyval) : call pyval
| F5CliHandler (pool : option Cli) (resource_config : ResourceConfig)
    (logger : Logger) (cs_api : Api) : call CliHandler
| F5SnmpHandler (resource_config : ResourceConfig) (logger : Logger) (cs_api : Api)
    (cli_handler : CliHandler) : call SnmpHandler
| F5FirewallAutoloadRunner (logger : Logger) (resource_config : ResourceConfig)
    (snmp_handler : SnmpHandler) : call AutoloadOperations
| RunCommandRunner (logger : Logger) (cli_handler : CliHandler)
    : call SendCommandOperations
| F5ConfigurationRunner (cli_handler : CliHandler) (logger : Logger)
    (resource_config : ResourceConfig) (api : Api) : call ConfigurationOperations
| F5FirmwareRunner (cli_handler : CliHandler) (logger : Logger) : call FirmwareOperations
| StateRunner (logger : Logger) (api : Api) (resource_config : ResourceConfig)
    (cli_handler : CliHandler) : call StateOperations
| discover (r : AutoloadOperations) : call pyval
| runner_run_custom_command (r : SendCommandOperations) (custom_command : pyval)
    : call pyval
| runner_run_custom_config_command (r : SendCommandOperations) (custom_command : pyval)
    : call pyval
| runner_save (r : ConfigurationOperations) (folder_path configuration_type : pyval)
    : call pyval
| runner_restore (r : ConfigurationOperations)
    (path restore_method configuration_type : pyval) : call pyval
| runner_orchestration_save (r : ConfigurationOperations) (mode custom_params : pyval)
    : call pyval
| runner_orchestration_restore (r : ConfigurationOperations)
    (saved_artifact_info custom_params : pyval) : call pyval
| runner_load_firmware (r : FirmwareOperations) (path : pyval) : call pyval
| runner_shutdown (r : StateOperations) : call pyval
| runner_health_check (r : StateOperations) : call pyval.

(** ** What a run leaves behind *)

Inductive level : Type := INFO | ERROR.

(** A log message: a literal, a template filled by [str.format] with one
    value, or the report the error boundary writes for an exception. *)
Inductive message : Type :=
| Text (s : string)
| Format (template : string) (arg : pyval)
| ErrorOccurred (e : exn).

Inductive output : Type :=
| Log (lg : Logger) (lv : level) (m : message)
| Enter (lg : Logger)
| Exit (lg : Logger) (raised : option exn).

Inductive entry : Type :=
| Called (X : Type) (c : call X) (answer : exn + X)
| Out (o : output)
| Locked
| Unlocked.

Definition trace := list entry.

(** The environment answers each call, knowing everything that happened
    before it. *)
Definition environment := forall X : Type, trace -> call X -> exn + X.

(** ** Programs

    A method body is a tree of the interactions it may have.  A call carries
    both continuations: what follows an answer and what follows an
    exception. *)
Inductive prog (A : Type) : Type :=
| Ret (a : A)
| Raise (e : exn)
| Do (X : Type) (c : call X) (k : exn + X -> prog A)
| Emit (o : output) (k : prog A)
| Acquire (k : prog A)
| Release (k : prog A)
| ReadCli (k : option Cli -> prog A)
| AssignCli (v : Cli) (k : prog A).

Arguments Ret {A} a.
Arguments Raise {A} e.
Arguments Do {A X} c k.
Arguments Emit {A} o k.
Arguments Acquire {A} k.
Arguments Release {A} k.
Arguments ReadCli {A} k.
Arguments AssignCli {A} v k.

Fixpoint bind {A B : Type} (p : prog A) (f : A -> prog B) : prog B :=
  match p with
  | Ret a => f a
  | Raise e => Raise e
  | Do c k => Do c (fun r => bind (k r) f)
  | Emit o k => Emit o (bind k f)
  | Acquire k => Acquire (bind k f)
  | Release k => Release (bind k f)
  | ReadCli k => ReadCli (fun v => bind (k v) f)
  | AssignCli v k => AssignCli v (bind k f)
  end.

Declare Scope prog_scope.
Delimit Scope prog_scope with prog.
Notation "x <- p ;; q" := (bind p (fun x => q))
  (at level 61, p at next level, right associativity) : prog_scope.
Notation "p ;; q" := (bind p (fun _ => q))
  (at level 61, right associativity) : prog_scope.
Open Scope prog_scope.

(** An ordinary call: an exception raised by the callee propagates. *)
Definition perform {X : Type} (c : call X) : prog X :=
  Do c (fun r => match r with inl e => Raise e | inr x => Ret x end).

Definition info (lg : Logger) (m : message) : prog unit :=
  Emit (Log lg INFO m) (Ret tt).

Definition self_cli : prog (option Cli) := ReadCli (fun v => Ret v).
Definition set_self_cli (v : Cli) : prog unit := AssignCli v (Ret tt).

(** Modelled from the spec: [ErrorHandlingContext], the scoped boundary of
    the host framework.  "Logs and re-raises": leaving the scope with an
    exception writes it to the logger at error level and lets it propagate;
    leaving it normally does nothing. *)
Fixpoint guarded {A : Type} (lg : Logger) (body : prog A) : prog A :=
  match body with
  | Ret a => Emit (Exit lg None) (Ret a)
  | Raise e => Emit (Exit lg (Some e)) (Emit (Log lg ERROR (ErrorOccurred e)) (Raise e))
  | Do c k => Do c (fun r => guarded lg (k r))
  | Emit o k => Emit o (guarded lg k)
  | Acquire k => Acquire (guarded lg k)
  | Release k => Release (guarded lg k)
  | ReadCli k => ReadCli (fun v => guarded lg (k v))
  | AssignCli v k => AssignCli v (guarded lg k)
  end.

(** [with ErrorHandlingContext(logger): body] *)
Definition ErrorHandlingContext {A : Type} (lg : Logger) (body : prog A) : prog A :=
  Emit (Enter lg) (guarded lg body).

(** The lock is given back however the body ends. *)
Fixpoint releasing {A : Type} (body : prog A) : prog A :=
  match body with
  | Ret a => Release (Ret a)
  | Raise e => Release (Raise e)
  | Do c k => Do c (fun r => releasing (k r))
  | Emit o k => Emit o (releasing k)
  | Acquire k => Acquire (releasing k)
  | Release k => Release (releasing k)
  | ReadCli k => ReadCli (fun v => releasing (k v))
  | AssignCli v k => AssignCli v (releasing k)
  end.

(** Modelled from the spec: the decorator [GlobalLock.lock] of the host
    framework, "a single mutual-exclusion lock" of the instance held for the
    length of the decorated method. *)
Definition GlobalLock_lock {A : Type} (method : prog A) : prog A :=
  Acquire (releasing method).

(** ** The driver instance and the execution of a program on it *)

(** The fields of an instance: [_cli], and the lock that [GlobalLock]
    creates in its initializer ([true] while it is held). *)
Record driver : Type := Driver {
  _cli : option Cli;
  _lock : bool
}.

(** [__init__] *)
Definition __init__ : driver := {| _cli := None; _lock := false |}.

Definition with_cli (d : driver) (v : option Cli) : driver :=
  {| _cli := v; _lock := _lock d |}.
Definition with_lock (d : driver) (b : bool) : driver :=
  {| _cli := _cli d; _lock := b |}.

Inductive outcome (A : Type) : Type :=
| Returned (a : A)
| Raised (e : exn)
| Blocked.

Arguments Returned {A} a.
Arguments Raised {A} e.
Arguments Blocked {A}.

Record result (A : Type) : Type := Result {
  out : outcome A;
  self : driver;
  log : trace
}.

Definition logged {A : Type} (x : entry) (r : result A) : result A :=
  {| out := out r; self := self r; log := x :: log r |}.

(** [run env p d h]: the program [p] executed by one thread on the instance
    [d], [h] being what happened before.  The log of the result holds what
    this run added, oldest first.  Taking a lock that is held never
    returns. *)
Fixpoint run {A : Type} (env : environment) (p : prog A) (d : driver) (h : trace)
  : result A :=
  match p with
  | Ret a => Result (Returned a) d []
  | Raise e => Result (Raised e) d []
  | Do c k =>
      let r := env _ h c in
      logged (Called c r) (run env (k r) d (h ++ [Called c r]))
  | Emit o k => logged (Out o) (run env k d (h ++ [Out o]))
  | Acquire k =>
      if _lock d then Result Blocked d []
      else logged Locked (run env k (with_lock d true) (h ++ [Locked]))
  | Release k => logged Unlocked (run env k (with_lock d false) (h ++ [Unlocked]))
  | ReadCli k => run env (k (_cli d)) d h
  | AssignCli v k => run env k (with_cli d (Some v)) h
  end.

(** ** The driver class *)

Module F5BigIPFirewallShell2GDriver.

Definition SUPPORTED_OS : list string := ["BIG[ -]?IP"].
Definition SHELL_NAME : string := "F5 BIG IP Firewall 2G".

Definition initialize (context : Context) : prog pyval :=
  resource_config <- perform
    (create_firewall_resource_from_context SHELL_NAME SUPPORTED_OS context) ;;
  session_pool_size <- perform (int (sessions_concurrency_limit resource_config)) ;;
  pool <- perform (get_cli session_pool_size) ;;
  set_self_cli pool ;;
  Ret (PyStr "Finished initializing").

Definition get_inventory (context : Context) : prog pyval :=
  GlobalLock_lock (
    logger <- perform (get_logger_with_thread_id context) ;;
    info logger (Text "Autoload command started") ;;
    ErrorHandlingContext logger (
      resource_config <- perform
        (create_firewall_resource_from_context SHELL_NAME SUPPORTED_OS context) ;;
      cs_api <- perform (get_api context) ;;
      pool <- self_cli ;;
      cli_handler <- perform (F5CliHandler pool resource_config logger cs_api) ;;
      snmp_handler <- perform (F5SnmpHandler resource_config logger cs_api cli_handler) ;;
      autoload_operations <- perform
        (F5FirewallAutoloadRunner logger resource_config snmp_handler) ;;
      autoload_details <- perform (discover autoload_operations) ;;
      info logger (Text "Autoload command completed") ;;
      Ret autoload_details)).

Definition run_custom_command (context : Context) (custom_command : pyval) : prog pyval :=
  logger <- perform (get_logger_with_thread_id context) ;;
  info logger (Text "Run custom command started") ;;
  ErrorHandlingContext logger (
    resource_config <- perform
      (create_firewall_resource_from_context SHELL_NAME SUPPORTED_OS context) ;;
    cs_api <- perform (get_api context) ;;
    pool <- self_cli ;;
    cli_handler <- perform (F5CliHandler pool resource_config logger cs_api) ;;
    send_command_operations <- perform (RunCommandRunner logger cli_handler) ;;
    parsed <- perform (parse_custom_commands custom_command) ;;
    response <- perform (runner_run_custom_command send_command_operations parsed) ;;
    info logger (Format "Run custom command ended with response: {}" response) ;;
    Ret response).

Definition run_custom_config_command (context : Context) (custom_command : pyval)
  : prog pyval :=
  logger <- perform (get_logger_with_thread_id context) ;;
  info logger (Text "Run custom config command started") ;;
  ErrorHandlingContext logger (
    resource_config <- perform
      (create_firewall_resource_from_context SHELL_NAME SUPPORTED_OS context) ;;
    cs_api <- perform (get_api context) ;;
    pool <- self_cli ;;
    cli_handler <- perform (F5CliHandler pool resource_config logger cs_api) ;;
    send_command_operations <- perform (RunCommandRunner logger cli_handler) ;;
    parsed <- perform (parse_custom_commands custom_command) ;;
    response <- perform
      (runner_run_custom_config_command send_command_operations parsed) ;;
    info logger (Format "Run custom config command ended with response: {}" response) ;;
    Ret response).

Definition save (context : Context) (folder_path configuration_type : pyval)
  : prog pyval :=
  logger <- perform (get_logger_with_thread_id context) ;;
  info logger (Text "Save command started") ;;
  ErrorHandlingContext logger (
    resource_config <- perform
      (create_firewall_resource_from_context SHELL_NAME SUPPORTED_OS context) ;;
    cs_api <- perform (get_api context) ;;
    let configuration_type := py_or configuration_type (PyStr "running") in
    pool <- self_cli ;;
    cli_handler <- perform (F5CliHandler pool resource_config logger cs_api) ;;
    configuration_operations <- perform
      (F5ConfigurationRunner cli_handler logger resource_config cs_api) ;;
    info logger (Text "Saving started... ") ;;
    response <- perform
      (runner_save configuration_operations folder_path configuration_type) ;;
    info logger (Text "Save command completed") ;;
    Ret response).

Definition restore (context : Context) (path configuration_type restore_method : pyval)
  : prog pyval :=
  GlobalLock_lock (
    logger <- perform (get_logger_with_thread_id context) ;;
    info logger (Text "Restore command started") ;;
    ErrorHandlingContext logger (
      resource_config <- perform
        (create_firewall_resource_from_context SHELL_NAME SUPPORTED_OS context) ;;
      cs_api <- perform (get_api context) ;;
      let configuration_type := py_or configuration_type (PyStr "running") in
      let restore_method := py_or restore_method (PyStr "override") in
      pool <- self_cli ;;
      cli_handler <- perform (F5CliHandler pool resource_config logger cs_api) ;;
      configuration_operations <- perform
        (F5ConfigurationRunner cli_handler logger resource_config cs_api) ;;
      info logger (Text "Restoring started...") ;;
      perform
        (runner_restore configuration_operations path restore_method configuration_type) ;;
      info logger (Text "Restore command completed") ;;
      Ret PyNone)).

Definition load_firmware (context : Context) (path : pyval) : prog pyval :=
  GlobalLock_lock (
    logger <- perform (get_logger_with_thread_id context) ;;
    info logger (Text "Load firmware command started") ;;
    ErrorHandlingContext logger (
      resource_config <- perform
        (create_firewall_resource_from_context SHELL_NAME SUPPORTED_OS context) ;;
      cs_api <- perform (get_api context) ;;
      pool <- self_cli ;;
      cli_handler <- perform (F5CliHandler pool resource_config logger cs_api) ;;
      info logger (Text "Start Loading Firmware...") ;;
      firmware_operations <- perform (F5FirmwareRunner cli_handler logger) ;;
      response <- perform (runner_load_firmware firmware_operations path) ;;
      info logger (Format "Load firmware command completed with response: {}" response) ;;
      Ret response)).

Definition shutdown (context : Context) : prog pyval :=
  logger <- perform (get_logger_with_thread_id context) ;;
  info logger (Text "Shutdown command started") ;;
  ErrorHandlingContext logger (
    resource_config <- perform
      (create_firewall_resource_from_context SHELL_NAME SUPPORTED_OS context) ;;
    cs_api <- perform (get_api context) ;;
    pool <- self_cli ;;
    cli_handler <- perform (F5CliHandler pool resource_config logger cs_api) ;;
    state_operations <- perform (StateRunner logger cs_api resource_config cli_handler) ;;
    response <- perform (runner_shutdown state_operations) ;;
    info logger (Format "Shutdown command completed with response: {}" response) ;;
    Ret response).

Definition orchestration_save (context : Context) (mode custom_params : pyval)
  : prog pyval :=
  logger <- perform (get_logger_with_thread_id context) ;;
  info logger (Text "Orchestration save command started") ;;
  ErrorHandlingContext logger (
    resource_config <- perform
      (create_firewall_resource_from_context SHELL_NAME SUPPORTED_OS context) ;;
    cs_api <- perform (get_api context) ;;
    let mode := py_or mode (PyStr "shallow") in
    pool <- self_cli ;;
    cli_handler <- perform (F5CliHandler pool resource_config logger cs_api) ;;
    configuration_operations <- perform
      (F5ConfigurationRunner cli_handler logger resource_config cs_api) ;;
    response <- perform
      (runner_orchestration_save configuration_operations mode custom_params) ;;
    info logger
      (Format "Orchestration save command completed with response: {}" response) ;;
    Ret response).

Definition orchestration_restore (context : Context)
  (saved_artifact_info custom_params : pyval) : prog pyval :=
  logger <- perform (get_logger_with_thread_id context) ;;
  info logger (Text "Orchestration restore command started") ;;
  ErrorHandlingContext logger (
    resource_config <- perform
      (create_firewall_resource_from_context SHELL_NAME SUPPORTED_OS context) ;;
    cs_api <- perform (get_api context) ;;
    pool <- self_cli ;;
    cli_handler <- perform (F5CliHandler pool resource_config logger cs_api) ;;
    configuration_operations <- perform
      (F5ConfigurationRunner cli_handler logger resource_config cs_api) ;;
    perform
      (runner_orchestration_restore configuration_operations
         saved_artifact_info custom_params) ;;
    info logger (Text "Orchestration restore command completed") ;;
    Ret PyNone).

Definition health_check (context : Context) : prog pyval :=
  logger <- perform (get_logger_with_thread_id context) ;;
  info logger (Text "Health check command started") ;;
  ErrorHandlingContext logger (
    resource_config <- perform
      (create_firewall_resource_from_context SHELL_NAME SUPPORTED_OS context) ;;
    cs_api <- perform (get_api context) ;;
    pool <- self_cli ;;
    cli_handler <- perform (F5CliHandler pool resource_config logger cs_api) ;;
    state_operations <- perform (StateRunner logger cs_api resource_config cli_handler) ;;
    response <- perform (runner_health_check state_operations) ;;
    info logger (Format "Health check command ended with response: {}" response) ;;
    Ret response).

Definition cleanup : prog pyval := Ret PyNone.

End F5BigIPFirewallShell2GDriver.

(** ** The plugin surface *)

Inductive member : Type := Attribute | Method.

(** The statements of the class body, in the order of the source. *)
Definition class_body : list (string * member) :=
  [ ("SUPPORTED_OS", Attribute);
    ("SHELL_NAME", Attribute);
    ("__init__", Method);
    ("initialize", Method);
    ("get_inventory", Method);
    ("run_custom_command", Method);
    ("run_custom_config_command", Method);
    ("save", Method);
    ("restore", Method);
    ("load_firmware", Method);
    ("shutdown", Method);
    ("orchestration_save", Method);
    ("orchestration_restore", Method);
    ("health_check", Method);
    ("cleanup", Method) ].

Definition is_method (m : member) : bool :=
  match m with Method => true | Attribute => false end.

(** A name is public unless it starts with an underscore. *)
Definition is_public (name : string) : bool := negb (String.prefix "_" name).

Definition public_operations : list string :=
  map fst (filter (fun d => is_method (snd d) && is_public (fst d)) class_body).

(** A call of the platform: a public method together with its arguments. *)
Inductive command : Type :=
| Initialize (context : Context)
| GetInventory (context : Context)
| RunCustomCommand (context : Context) (custom_command : pyval)
| RunCustomConfigCommand (context : Context) (custom_command : pyval)
| Save (context : Context) (folder_path configuration_type : pyval)
| Restore (context : Context) (path configuration_type restore_method : pyval)
| LoadFirmware (context : Context) (path : pyval)
| Shutdown (context : Context)
| OrchestrationSave (context : Context) (mode custom_params : pyval)
| OrchestrationRestore (context : Context) (saved_artifact_info custom_params : pyval)
| HealthCheck (context : Context)
| Cleanup.

Definition method_name (c : command) : string :=
  match c with
  | Initialize _ => "initialize"
  | GetInventory _ => "get_inventory"
  | RunCustomCommand _ _ => "run_custom_command"
  | RunCustomConfigCommand _ _ => "run_custom_config_command"
  | Save _ _ _ => "save"
  | Restore _ _ _ _ => "restore"
  | LoadFirmware _ _ => "load_firmware"
  | Shutdown _ => "shutdown"
  | OrchestrationSave _ _ _ => "orchestration_save"
  | OrchestrationRestore _ _ _ => "orchestration_restore"
  | HealthCheck _ => "health_check"
  | Cleanup => "cleanup"
  end.

Import F5BigIPFirewallShell2GDriver.

Definition invoke (c : command) : prog pyval :=
  match c with
  | Initialize context => initialize context
  | GetInventory context => get_inventory context
  | RunCustomCommand context custom_command => run_custom_command context custom_command
  | RunCustomConfigCommand context custom_command =>
      run_custom_config_command context custom_command
  | Save context folder_path configuration_type =>
      save context folder_path configuration_type
  | Restore context path configuration_type restore_method =>
      restore context path configuration_type restore_method
  | LoadFirmware context path => load_firmware context path
  | Shutdown context => shutdown context
  | OrchestrationSave context mode custom_params =>
      orchestration_save context mode custom_params
  | OrchestrationRestore context saved_artifact_info custom_params =>
      orchestration_restore context saved_artifact_info custom_params
  | HealthCheck context => health_check context
  | Cleanup => cleanup
  end.

(** The methods that reach the device: all but the two of the life cycle. *)
Definition device_facing (c : command) : bool :=
  match c with
  | Initialize _ | Cleanup => false
  | _ => true
  end.

(** What the ten methods that reach the device share: the logger is
    created, the entry is logged, and the rest is handed to the error
    boundary. *)
Definition framed (context : Context) (started : message) (body : Logger -> prog pyval)
  : prog pyval :=
  logger <- perform (get_logger_with_thread_id context) ;;
  info logger started ;;
  ErrorHandlingContext logger (body logger).

(** The platform calling the instance several times in a row, whatever
    each call ends with. *)
Fixpoint session (env : environment) (cmds : list command) (d : driver) (h : trace)
  : driver * trace :=
  match cmds with
  | [] => (d, [])
  | c :: rest =>
      let r := run env (invoke c) d h in
      let s := session env rest (self r) (h ++ log r) in
      (fst s, log r ++ snd s)
  end.

(** ** Threads

    The platform may call the same instance from several threads.  Each
    thread runs one method; a step of the pool is one interaction of one
    thread.  A thread [holds] from taking the lock to giving it back. *)
Definition step {A : Type} (env : environment) (p : prog A) (d : driver) (h : trace)
  : option (prog A * driver * trace) :=
  match p with
  | Ret _ | Raise _ => None
  | Do c k => let r := env _ h c in Some (k r, d, h ++ [Called c r])
  | Emit o k => Some (k, d, h ++ [Out o])
  | Acquire k => if _lock d then None else Some (k, with_lock d true, h ++ [Locked])
  | Release k => Some (k, with_lock d false, h ++ [Unlocked])
  | ReadCli k => Some (k (_cli d), d, h)
  | AssignCli v k => Some (k, with_cli d (Some v), h)
  end.

Record thread : Type := Thread {
  code : prog pyval;
  holds : bool
}.

Definition holds_after {A : Type} (p : prog A) (held : bool) : bool :=
  match p with
  | Acquire _ => true
  | Release _ => false
  | _ => held
  end.

Record pool : Type := Pool {
  instance : driver;
  history : trace;
  threads : list thread
}.

Inductive pool_step (env : environment) : pool -> pool -> Prop :=
| pool_step_intro d h before th after p' d' h' :
    step env (code th) d h = Some (p', d', h') ->
    pool_step env
      (Pool d h (before ++ th :: after))
      (Pool d' h' (before ++ Thread p' (holds_after (code th) (holds th)) :: after)).

Inductive reachable (env : environment) (s : pool) : pool -> Prop :=
| reachable_start : reachable env s s
| reachable_step s1 s2 : reachable env s s1 -> pool_step env s1 s2 -> reachable env s s2.

(** How many threads hold the lock. *)
Definition holders (ts : list thread) : nat := List.length (filter holds ts).

(** Every command of [cmds] called at once on the instance [d]. *)
Definition spawn (d : driver) (cmds : list command) : pool :=
  Pool d [] (map (fun c => Thread (invoke c) false) cmds).

(** ** Reading a log *)

Definition is_call (x : entry) : bool :=
  match x with Called _ _ => true | _ => false end.

(** A call that was answered with an exception. *)
Definition failure (x : entry) : option exn :=
  match x with Called _ (inl e) => Some e | _ => None end.

Definition answered (x : entry) : bool :=
  match failure x with Some _ => false | None => true end.

Definition is_scope_mark (x : entry) : bool :=
  match x with Out (Enter _) | Out (Exit _ _) => true | _ => false end.

Definition is_lock_event (x : entry) : bool :=
  match x with Locked | Unlocked => true | _ => false end.

Definition is_info_log (x : entry) : bool :=
  match x with Out (Log _ INFO _) => true | _ => false end.

Definition is_log (x : entry) : bool :=
  match x with Out (Log _ _ _) => true | _ => false end.

Definition creates_pool (x : entry) : bool :=
  match x with Called (get_cli _) _ => true | _ => false end.

Definition builds_resource_config (x : entry) : bool :=
  match x with
  | Called (create_firewall_resource_from_context _ _ _) (inr _) => true
  | _ => false
  end.

Definition builds_api_handle (x : entry) : bool :=
  match x with Called (get_api _) (inr _) => true | _ => false end.

Definition builds_cli_handler (x : entry) : bool :=
  match x with Called (F5CliHandler _ _ _ _) (inr _) => true | _ => false end.

Definition builds_runner (x : entry) : bool :=
  match x with
  | Called (F5FirewallAutoloadRunner _ _ _) (inr _)
  | Called (RunCommandRunner _ _) (inr _)
  | Called (F5ConfigurationRunner _ _ _ _) (inr _)
  | Called (F5FirmwareRunner _ _) (inr _)
  | Called (StateRunner _ _ _ _) (inr _) => true
  | _ => false
  end.

Definition delegates (x : entry) : bool :=
  match x with
  | Called (discover _) _
  | Called (runner_run_custom_command _ _) _
  | Called (runner_run_custom_config_command _ _) _
  | Called (runner_save _ _ _) _
  | Called (runner_restore _ _ _ _) _
  | Called (runner_orchestration_save _ _ _) _
  | Called (runner_orchestration_restore _ _ _) _
  | Called (runner_load_firmware _ _) _
  | Called (runner_shutdown _) _
  | Called (runner_health_check _) _ => true
  | _ => false
  end.

(** [follows ps t]: the log [t] has entries, in this order, that satisfy the
    tests [ps] one after the other. *)
Fixpoint follows (ps : list (entry -> bool)) (t : trace) : bool :=
  match ps with
  | [] => true
  | p :: ps' =>
      (fix scan (t : trace) : bool :=
         match t with
         | [] => false
         | x :: t' => if p x then follows ps' t' else scan t'
         end) t
  end.

(** The shape of a dispatch: the entry is logged, the per-call context is
    built (resource configuration, API handle, CLI handler), a runner is
    built and called, and the exit is logged. *)
Definition dispatches (t : trace) : bool :=
  follows
    [ is_info_log; builds_resource_config; builds_api_handle; builds_cli_handler;
      builds_runner; delegates; is_info_log ] t.

(** Outside the error boundary a run may create the logger, write to it and
    handle the lock; calls to any other collaborator belong inside. *)
Definition allowed_outside (x : entry) : bool :=
  match x with
  | Called (get_logger_with_thread_id _) _ => true
  | Called _ _ => false
  | Out (Log _ _ _) => true
  | Out _ => false
  | Locked | Unlocked => true
  end.

(** How a run that entered the boundary of [lg] ends: either the body
    returned, and so does the method; or it raised, the boundary reported
    the exception on [lg], and the method raises the same exception. *)
Definition leaves (lg : Logger) (raised : option exn) (after : trace)
  (res : outcome pyval) : Prop :=
  match raised with
  | None => exists v, res = Returned v
  | Some e =>
      res = Raised e /\
      exists rest, after = Out (Log lg ERROR (ErrorOccurred e)) :: rest
  end.

(** A run, given by its log and its outcome, whose body was executed inside
    the error boundary. *)
Definition inside_boundary (t : trace) (res : outcome pyval) : Prop :=
  exists lg before body raised after,
    t = before ++ Out (Enter lg) :: body ++ Out (Exit lg raised) :: after /\
    forallb allowed_outside before = true /\
    forallb allowed_outside after = true /\
    leaves lg raised after res.

(** The first call of a log that failed, with what the log holds after it. *)
Fixpoint first_failure (t : trace) : option (exn * trace) :=
  match t with
  | [] => None
  | x :: t' =>
      match failure x with
      | Some e => Some (e, t')
      | None => first_failure t'
      end
  end.

(** A call that creates no pool and, if it builds a CLI handler, hands it
    the pool [v]. *)
Definition creates_no_pool {X : Type} (v : option Cli) (c : call X) : Prop :=
  match c with
  | get_cli _ => False
  | F5CliHandler pool _ _ _ => pool = v
  | _ => True
  end.

(** An entry of a run that relies on the pool [v]. *)
Definition relies_on (v : option Cli) (x : entry) : Prop :=
  match x with
  | Called c _ => creates_no_pool v c
  | _ => True
  end.

(** The pool that an entry shows being created. *)
Definition created_pool (x : entry) : option Cli :=
  match x with
  | Called c r =>
      match c in call X return exn + X -> option Cli with
      | get_cli _ => fun r => match r with inr pool => Some pool | inl _ => None end
      | _ => fun _ => None
      end r
  | _ => None
  end.

(** What an entry shows being asked of a runner: the method and its keyword
    arguments. *)
Definition delegated (x : entry) : option (string * list (string * pyval)) :=
  match x with
  | Called (discover _) _ => Some ("discover", [])
  | Called (runner_run_custom_command _ c) _ =>
      Some ("run_custom_command", [("custom_command", c)])
  | Called (runner_run_custom_config_command _ c) _ =>
      Some ("run_custom_config_command", [("custom_command", c)])
  | Called (runner_save _ fp ct) _ =>
      Some ("save", [("folder_path", fp); ("configuration_type", ct)])
  | Called (runner_restore _ p rm ct) _ =>
      Some ("restore", [("path", p); ("restore_method", rm); ("configuration_type", ct)])
  | Called (runner_orchestration_save _ m cp) _ =>
      Some ("orchestration_save", [("mode", m); ("custom_params", cp)])
  | Called (runner_orchestration_restore _ sai cp) _ =>
      Some ("orchestration_restore", [("saved_artifact_info", sai); ("custom_params", cp)])
  | Called (runner_load_firmware _ p) _ => Some ("load_firmware", [("path", p)])
  | Called (runner_shutdown _) _ => Some ("shutdown", [])
  | Called (runner_health_check _) _ => Some ("health_check", [])
  | _ => None
  end.

(** The pool that an entry shows being handed to a new CLI handler. *)
Definition handed_pool (x : entry) : option (option Cli) :=
  match x with
  | Called (F5CliHandler pool _ _ _) _ => Some pool
  | _ => None
  end.

Definition collect {B : Type} (f : entry -> option B) (t : trace) : list B :=
  flat_map (fun x => match f x with Some b => [b] | None => [] end) t.

(** Everything a run asked of its runners, and every pool it created. *)
Definition delegations (t : trace) : list (string * list (string * pyval)) :=
  collect delegated t.
Definition created_pools (t : trace) : list Cli := collect created_pool t.
Definition handed_pools (t : trace) : list (option Cli) := collect handed_pool t.

(** ** Reading a program *)

(** [gives_up e p]: [p] does nothing but write to the log and give the lock
    back before it raises [e]. *)
Fixpoint gives_up {A : Type} (e : exn) (p : prog A) : Prop :=
  match p with
  | Raise e' => e' = e
  | Emit _ k | Release k => gives_up e k
  | _ => False
  end.

(** No call of [p] is followed, when it fails, by anything that could
    recover from the failure or try again. *)
Fixpoint no_recovery {A : Type} (p : prog A) : Prop :=
  match p with
  | Ret _ | Raise _ => True
  | Do c k => (forall e, gives_up e (k (inl e))) /\ (forall x, no_recovery (k (inr x)))
  | Emit _ k | Acquire k | Release k | AssignCli _ k => no_recovery k
  | ReadCli k => forall v, no_recovery (k v)
  end.

(** [p] never touches the lock. *)
Fixpoint unsynchronized {A : Type} (p : prog A) : Prop :=
  match p with
  | Ret _ | Raise _ => True
  | Do c k => forall r, unsynchronized (k r)
  | Emit _ k | AssignCli _ k => unsynchronized k
  | Acquire _ | Release _ => False
  | ReadCli k => forall v, unsynchronized (k v)
  end.

(** [balanced held p]: started with the lock [held] or not, [p] takes the
    lock only when it does not hold it, gives it back only when it does, and
    ends without it. *)
Fixpoint balanced {A : Type} (held : bool) (p : prog A) : Prop :=
  match p with
  | Ret _ | Raise _ => held = false
  | Do c k => forall r, balanced held (k r)
  | Emit _ k | AssignCli _ k => balanced held k
  | Acquire k => held = false /\ balanced true k
  | Release k => held = true /\ balanced false k
  | ReadCli k => forall v, balanced held (k v)
  end.

(** The first thing [p] does is to take the lock. *)
Definition takes_lock {A : Type} (p : prog A) : bool :=
  match p with Acquire _ => true | _ => false end.

(** On an instance whose field [_cli] is [v], [p] leaves the field alone,
    creates no pool and hands [v] to every CLI handler it builds. *)
Fixpoint reuses {A : Type} (v : option Cli) (p : prog A) : Prop :=
  match p with
  | Ret _ | Raise _ => True
  | Do c k => creates_no_pool v c /\ forall r, reuses v (k r)
  | Emit _ k | Acquire k | Release k => reuses v k
  | ReadCli k => reuses v (k v)
  | AssignCli _ _ => False
  end.

(** What every pool of threads started on the driver keeps true: each
    thread is balanced from where it stands, and the lock is held exactly
    when one thread holds it. *)
Definition lock_invariant (s : pool) : Prop :=
  Forall (fun th => balanced (holds th) (code th)) (threads s) /\
  holders (threads s) = if _lock (instance s) then 1 else 0.

(** A thread that runs a method without the decorator never holds. *)
Definition stays_out (c : command) (th : thread) : Prop :=
  takes_lock (invoke c) = false -> holds th = false /\ unsynchronized (code th).

(** ** Three environments to run the driver in *)

(** A platform and a device that answer every call.  The concurrency limit
    is the integer of the debugging block at the end of the source. *)
Definition obliging : environment := fun X _ c =>
  match c in call X return exn + X with
  | get_logger_with_thread_id _ => inr (mkLogger 1)
  | create_firewall_resource_from_context _ _ _ => inr (mkResourceConfig 2 (PyInt 1))
  | get_api _ => inr (mkApi 3)
  | int v => match v with PyInt z => inr z | _ => inl (Exn "TypeError") end
  | get_cli n => inr (mkCli (Z.to_nat n))
  | parse_custom_commands command => inr command
  | F5CliHandler _ _ _ _ => inr (mkCliHandler 5)
  | F5SnmpHandler _ _ _ _ => inr (mkSnmpHandler 6)
  | F5FirewallAutoloadRunner _ _ _ => inr (mkAutoloadOperations 7)
  | RunCommandRunner _ _ => inr (mkSendCommandOperations 8)
  | F5ConfigurationRunner _ _ _ _ => inr (mkConfigurationOperations 9)
  | F5FirmwareRunner _ _ => inr (mkFirmwareOperations 10)
  | StateRunner _ _ _ _ => inr (mkStateOperations 11)
  | discover _ => inr (PyObj 12)
  | runner_run_custom_command _ command => inr command
  | runner_run_custom_config_command _ command => inr command
  | runner_save _ _ _ => inr (PyStr "saved")
  | runner_restore _ _ _ _ => inr PyNone
  | runner_orchestration_save _ _ _ => inr (PyStr "snapshot")
  | runner_orchestration_restore _ _ _ => inr PyNone
  | runner_load_firmware _ _ => inr PyNone
  | runner_shutdown _ => inr PyNone
  | runner_health_check _ => inr (PyStr "passed")
  end.

(** The same, with a device that cannot be reached: whatever a runner is
    asked to do fails. *)
Definition unreachable_device : environment := fun X h c =>
  match c in call X return exn + X with
  | discover _
  | runner_run_custom_command _ _
  | runner_run_custom_config_command _ _
  | runner_save _ _ _
  | runner_restore _ _ _ _
  | runner_orchestration_save _ _ _
  | runner_orchestration_restore _ _ _
  | runner_load_firmware _ _
  | runner_shutdown _
  | runner_health_check _ => inl (Exn "SessionException")
  | c' => obliging h c'
  end.

(** A resource whose attributes cannot be read. *)
Definition unreadable_resource : environment := fun X h c =>
  match c in call X return exn + X with
  | create_firewall_resource_from_context _ _ _ => inl (Exn "KeyError")
  | c' => obliging h c'
  end.

Definition context0 : Context := mkContext 0.

(** Three calls made at once, and the pool once the second has the lock. *)
Definition three_calls : list command :=
  [ Restore context0 (PyStr "ftp://backup/running.cfg") PyNone PyNone;
    GetInventory context0;
    Save context0 (PyStr "ftp://backup") PyNone ].

Definition once_locked (p : prog pyval) : thread :=
  match p with
  | Acquire k => Thread k true
  | _ => Thread p false
  end.

Definition inventory_running : pool :=
  Pool (with_lock __init__ true) [Locked]
    [ Thread (invoke (Restore context0 (PyStr "ftp://backup/running.cfg") PyNone PyNone)) false;
      once_locked (invoke (GetInventory context0));
      Thread (invoke (Save context0 (PyStr "ftp://backup") PyNone)) false ].


(** ** More to read in a log *)

(** The answer that an entry shows a runner giving. *)
Definition runner_answer (x : entry) : option pyval :=
  match x with
  | Called c r =>
      match c in call X return exn + X -> option pyval with
      | discover _
      | runner_run_custom_command _ _
      | runner_run_custom_config_command _ _
      | runner_save _ _ _
      | runner_restore _ _ _ _
      | runner_orchestration_save _ _ _
      | runner_orchestration_restore _ _ _
      | runner_load_firmware _ _
      | runner_shutdown _
      | runner_health_check _ =>
          fun r => match r with inr v => Some v | inl _ => None end
      | _ => fun _ => None
      end r
  | _ => None
  end.

Definition runner_answers (t : trace) : list pyval := collect runner_answer t.

(** The runner method behind each method of the driver. *)
Definition runner_method (c : command) : option string :=
  match c with
  | Initialize _ | Cleanup => None
  | GetInventory _ => Some "discover"
  | _ => Some (method_name c)
  end.

(** What the start of a call leaves in the log when nothing fails: the
    logger, the entry message, the boundary, and the per-call context. *)
Definition context_built (context : Context) (started : string) (pool : option Cli)
  (logger : Logger) (rc : ResourceConfig) (api : Api) (handler : CliHandler) : trace :=
  [ Called (get_logger_with_thread_id context) (inr logger);
    Out (Log logger INFO (Text started));
    Out (Enter logger);
    Called (create_firewall_resource_from_context SHELL_NAME SUPPORTED_OS context) (inr rc);
    Called (get_api context) (inr api);
    Called (F5CliHandler pool rc logger api) (inr handler) ].

(** A device whose restore reports what it did. *)
Definition reporting : environment := fun X h c =>
  match c in call X return exn + X with
  | runner_restore _ _ _ _ => inr (PyStr "restored")
  | runner_orchestration_restore _ _ _ => inr (PyStr "restored")
  | c' => obliging h c'
  end.

(** The exception that an entry shows the error boundary reporting. *)
Definition reported (x : entry) : option exn :=
  match x with
  | Out (Log _ ERROR (ErrorOccurred e)) => Some e
  | _ => None
  end.

Definition reports (t : trace) : list exn := collect reported t.

(** The lock events that a call leaves in the log when it is not kept
    waiting. *)
Definition lock_events (c : command) : trace :=
  if takes_lock (invoke c) then [Locked; Unlocked] else [].

(** A thread that has run its method to the end. *)
Definition finished {A : Type} (p : prog A) : bool :=
  match p with
  | Ret _ | Raise _ => true
  | _ => false
  end.

(** The context that an entry shows a collaborator being given. *)
Definition context_used (x : entry) : option Context :=
  match x with
  | Called (get_logger_with_thread_id context) _ => Some context
  | Called (create_firewall_resource_from_context _ _ context) _ => Some context
  | Called (get_api context) _ => Some context
  | _ => None
  end.

(** The shell name and the pattern of supported systems that an entry shows
    a resource configuration being built for. *)
Definition shell_used (x : entry) : option (string * list string) :=
  match x with
  | Called (create_firewall_resource_from_context shell_name supported_os _) _ =>
      Some (shell_name, supported_os)
  | _ => None
  end.

(** The logger that an entry shows being written to, or being handed to a
    handler or a runner. *)
Definition logger_used (x : entry) : option Logger :=
  match x with
  | Out (Log lg _ _) => Some lg
  | Out (Enter lg) => Some lg
  | Out (Exit lg _) => Some lg
  | Called (F5CliHandler _ _ lg _) _ => Some lg
  | Called (F5SnmpHandler _ lg _ _) _ => Some lg
  | Called (F5FirewallAutoloadRunner lg _ _) _ => Some lg
  | Called (RunCommandRunner lg _) _ => Some lg
  | Called (F5ConfigurationRunner _ lg _ _) _ => Some lg
  | Called (F5FirmwareRunner _ lg) _ => Some lg
  | Called (StateRunner lg _ _ _) _ => Some lg
  | _ => None
  end.

(** The logger that an entry shows being created. *)
Definition made_logger (x : entry) : option Logger :=
  match x with
  | Called c r =>
      match c in call X return exn + X -> option Logger with
      | get_logger_with_thread_id _ =>
          fun r => match r with inr lg => Some lg | inl _ => None end
      | _ => fun _ => None
      end r
  | _ => None
  end.

(** The context a call of the platform comes with. *)
Definition context_of (c : command) : option Context :=
  match c with
  | Initialize context
  | GetInventory context
  | RunCustomCommand context _
  | RunCustomConfigCommand context _
  | Save context _ _
  | Restore context _ _ _
  | LoadFirmware context _
  | Shutdown context
  | OrchestrationSave context _ _
  | OrchestrationRestore context _ _
  | HealthCheck context => Some context
  | Cleanup => None
  end.

(** ** Proof automation *)

(** Split on how a run ended. *)
Ltac by_outcome :=
  cbn;
  match goal with
  | |- context [out (run ?env ?p ?d ?h)] => destruct (out (run env p d h))
  end;
  cbn; rewrite <- ?app_assoc; reflexivity.

(** Walk down a program tree, one node at a time. *)
Ltac walk :=
  repeat (cbn;
    match goal with
    | |- forall _, _ => intro
    | |- _ /\ _ => split
    | |- True => exact I
    | |- ?x = ?x => reflexivity
    | r : (_ + _)%type |- _ => destruct r
    end).

(** Follow a run call by call, in the order of the calls, splitting on what
    the environment answers. *)
Ltac next_answer env :=
  match goal with
  | |- context [env ?X ?hh ?c] =>
      lazymatch hh with
      | context [env _ _ _] => fail
      | _ => destruct (env X hh c); cbn
      end
  end.

Ltac follow env := cbn; repeat next_answer env.

(** Settle a membership in a list that is known entry by entry. *)
Ltac among :=
  let z := fresh "z" in
  let H := fresh "H" in
  intros z H; cbn in H;
  repeat (destruct H as [H | H]; [subst; reflexivity |]);
  contradiction.

(** Find the argument of a request to a runner and the default it went
    through. *)
Ltac defaulted :=
  let name := fresh "name" in
  let args := fresh "args" in
  let key := fresh "key" in
  let v := fresh "v" in
  let HD := fresh "HD" in
  let HA := fresh "HA" in
  let HK := fresh "HK" in
  intros name args key v HD HA HK; cbn in HD;
  repeat (destruct HD as [HD | HD]; [injection HD as <- <- |]);
  try contradiction;
  cbn in HA;
  repeat (destruct HA as [HA | HA]; [injection HA as <- <- |]);
  try contradiction;
  cbn in HK;
  repeat (destruct HK as [HK | HK]; [try discriminate HK |]);
  try contradiction;
  unfold py_or;
  match goal with
  | |- truthy (if truthy ?a then _ else _) = true => now destruct (truthy a) eqn:?
  end.

(** * Properties *)

(** ** Running composed programs *)

Section Running.

Variable env : environment.

Lemma run_bind (A B : Type) (p : prog A) (f : A -> prog B) :
  forall d h,
    run env (bind p f) d h =
    let r := run env p d h in
    match out r with
    | Returned a =>
        let r' := run env (f a) (self r) (h ++ log r) in
        Result (out r') (self r') (log r ++ log r')
    | Raised e => Result (Raised e) (self r) (log r)
    | Blocked => Result Blocked (self r) (log r)
    end.
Proof.
  induction p as [a | e | X c k IH | o k IH | k IH | k IH | k IH | v k IH];
    intros d h; cbn [bind run].
  - cbn. rewrite app_nil_r. now destruct (run env (f a) d h).
  - reflexivity.
  - rewrite IH. by_outcome.
  - rewrite IH. by_outcome.
  - destruct (_lock d); [reflexivity |]. rewrite IH. by_outcome.
  - rewrite IH. by_outcome.
  - apply IH.
  - apply IH.
Qed.

Lemma run_guarded (A : Type) (lg : Logger) (p : prog A) :
  forall d h,
    run env (guarded lg p) d h =
    let r := run env p d h in
    match out r with
    | Returned a => Result (Returned a) (self r) (log r ++ [Out (Exit lg None)])
    | Raised e =>
        Result (Raised e) (self r)
          (log r ++ [Out (Exit lg (Some e)); Out (Log lg ERROR (ErrorOccurred e))])
    | Blocked => r
    end.
Proof.
  induction p as [a | e | X c k IH | o k IH | k IH | k IH | k IH | v k IH];
    intros d h; cbn [guarded run].
  - reflexivity.
  - reflexivity.
  - rewrite IH. by_outcome.
  - rewrite IH. by_outcome.
  - destruct (_lock d); [reflexivity |]. rewrite IH. by_outcome.
  - rewrite IH. by_outcome.
  - apply IH.
  - apply IH.
Qed.

Lemma run_releasing (A : Type) (p : prog A) :
  forall d h,
    run env (releasing p) d h =
    let r := run env p d h in
    match out r with
    | Blocked => r
    | res => Result res (with_lock (self r) false) (log r ++ [Unlocked])
    end.
Proof.
  induction p as [a | e | X c k IH | o k IH | k IH | k IH | k IH | v k IH];
    intros d h; cbn [releasing run].
  - reflexivity.
  - reflexivity.
  - rewrite IH. by_outcome.
  - rewrite IH. by_outcome.
  - destruct (_lock d); [reflexivity |]. rewrite IH. by_outcome.
  - rewrite IH. by_outcome.
  - apply IH.
  - apply IH.
Qed.

End Running.

(** One step of a thread is the first interaction of its run. *)
Lemma run_step (env : environment) (A : Type) (p p' : prog A) (d d' : driver)
  (h h' : trace) :
  step env p d h = Some (p', d', h') ->
  exists new,
    h' = h ++ new /\
    out (run env p d h) = out (run env p' d' h') /\
    self (run env p d h) = self (run env p' d' h') /\
    log (run env p d h) = new ++ log (run env p' d' h').
Proof.
  destruct p as [a | e | X c k | o k | k | k | k | v k]; cbn; intros S;
    try discriminate S.
  - injection S as <- <- <-. now exists [Called c (env X h c)].
  - injection S as <- <- <-. now exists [Out o].
  - destruct (_lock d); [discriminate S |]. injection S as <- <- <-. now exists [Locked].
  - injection S as <- <- <-. now exists [Unlocked].
  - injection S as <- <- <-. exists []. now rewrite app_nil_r.
  - injection S as <- <- <-. exists []. now rewrite app_nil_r.
Qed.

(** ** What the programs of the driver look like *)

Lemma invoke_no_recovery (c : command) : no_recovery (invoke c).
Proof. destruct c; walk. Qed.

Lemma invoke_balanced (c : command) : balanced false (invoke c).
Proof. destruct c; walk. Qed.

Lemma invoke_reuses (c : command) (v : option Cli) :
  (forall context, c <> Initialize context) -> reuses v (invoke c).
Proof.
  destruct c; intros Hc; try (now walk).
  now elim (Hc context).
Qed.

Lemma invoke_unsynchronized (c : command) :
  takes_lock (invoke c) = false -> unsynchronized (invoke c).
Proof. destruct c; cbn; intros H; try discriminate H; walk. Qed.

(** ** From the shape of a program to its runs *)

Lemma gives_up_run (env : environment) (A : Type) (e : exn) (p : prog A) :
  gives_up e p ->
  forall d h,
    out (run env p d h) = Raised e /\ existsb is_call (log (run env p d h)) = false.
Proof.
  induction p as [a | e' | X c k IH | o k IH | k IH | k IH | k IH | v k IH];
    cbn; intros G d h; try contradiction.
  - now subst.
  - now apply IH.
  - now apply IH.
Qed.

Lemma no_recovery_run (env : environment) (A : Type) (p : prog A) :
  no_recovery p ->
  forall d h e rest,
    first_failure (log (run env p d h)) = Some (e, rest) ->
    out (run env p d h) = Raised e /\ existsb is_call rest = false.
Proof.
  induction p as [a | e' | X c k IH | o k IH | k IH | k IH | k IH | v k IH];
    cbn; intros N d h e rest F; try discriminate F; try (now apply IH in F).
  - destruct N as [G N]. destruct (env X h c) as [e0 | x]; cbn in F.
    + injection F as <- <-. now apply gives_up_run.
    + now apply IH in F.
  - destruct (_lock d); cbn in F; [discriminate F |]. now apply IH in F.
Qed.

Lemma unsynchronized_run (env : environment) (A : Type) (p : prog A) :
  unsynchronized p ->
  forall d h,
    out (run env p d h) <> Blocked /\
    _lock (self (run env p d h)) = _lock d /\
    existsb is_lock_event (log (run env p d h)) = false.
Proof.
  induction p as [a | e' | X c k IH | o k IH | k IH | k IH | k IH | v k IH];
    cbn; intros U d h; try contradiction; try (now apply IH).
  - repeat split; congruence.
  - repeat split; congruence.
  - exact (IH U (with_cli d (Some v)) h).
Qed.

Lemma reuses_run (env : environment) (A : Type) (p : prog A) :
  forall d h,
    reuses (_cli d) p ->
    _cli (self (run env p d h)) = _cli d /\
    Forall (relies_on (_cli d)) (log (run env p d h)).
Proof.
  induction p as [a | e' | X c k IH | o k IH | k IH | k IH | k IH | v k IH];
    cbn; intros d h R; try contradiction; try (now split).
  - destruct R as [C R].
    destruct (IH (env X h c) d (h ++ [Called c (env X h c)]) (R _)) as [E F].
    split; [exact E |]. now constructor.
  - destruct (IH d (h ++ [Out o]) R) as [E F]. split; [exact E |]. now constructor.
  - destruct (_lock d) eqn:L; cbn; [now split |].
    destruct (IH (with_lock d true) (h ++ [Locked]) R) as [E F].
    split; [exact E |]. now constructor.
  - destruct (IH (with_lock d false) (h ++ [Unlocked]) R) as [E F].
    split; [exact E |]. now constructor.
  - now apply IH.
Qed.

(** ** The frame of the methods that reach the device *)

Lemma frame (c : command) :
  device_facing c = true ->
  exists context started body,
    (invoke c = framed context started body \/
     invoke c = GlobalLock_lock (framed context started body)) /\
    unsynchronized (framed context started body).
Proof.
  destruct c; cbn; intros H; try discriminate H;
    eexists _, _, _; (split; [(left; reflexivity) || (right; reflexivity) | walk]).
Qed.

Lemma unsynchronized_guarded (A : Type) (lg : Logger) (p : prog A) :
  unsynchronized (guarded lg p) -> unsynchronized p.
Proof.
  induction p as [a | e | X c k IH | o k IH | k IH | k IH | k IH | v k IH];
    cbn; auto.
Qed.

Lemma run_framed (env : environment) context started body d h :
  unsynchronized (framed context started body) ->
  let r := run env (framed context started body) d h in
  (exists e,
      log r = [Called (get_logger_with_thread_id context) (inl e)] /\ out r = Raised e) \/
  (exists lg inner raised after,
      log r = [Called (get_logger_with_thread_id context) (inr lg);
               Out (Log lg INFO started)]
              ++ Out (Enter lg) :: inner ++ Out (Exit lg raised) :: after /\
      forallb allowed_outside after = true /\
      leaves lg raised after (out r)).
Proof.
  intros U. unfold framed in *. cbn in U. cbn.
  destruct (env Logger h (get_logger_with_thread_id context)) as [e | lg] eqn:E.
  - left. exists e. now cbn.
  - right. specialize (U (inr lg)). cbn in U. cbn. rewrite run_guarded. cbn zeta.
    set (r := run env (body lg) d _).
    assert (B : out r <> Blocked).
    { now apply unsynchronized_run, unsynchronized_guarded with lg. }
    exists lg, (log r).
    destruct (out r) as [v | e |] eqn:O; cbn.
    + exists None, []. repeat split. now exists v.
    + exists (Some e), [Out (Log lg ERROR (ErrorOccurred e))]. repeat split.
      now eexists.
    + now elim B.
Qed.

(** ** The error boundary *)

Lemma device_facing_inside (env : environment) (c : command) (d : driver) (h : trace) :
  _lock d = false ->
  device_facing c = true ->
  let r := run env (invoke c) d h in
  (exists context e,
      filter is_call (log r) = [Called (get_logger_with_thread_id context) (inl e)] /\
      out r = Raised e) \/
  inside_boundary (log r) (out r).
Proof.
  intros L D.
  destruct (frame c D) as (context & started & body & [E | E] & U); rewrite E; clear E.
  - destruct (run_framed env d h U)
      as [(e & T & O) | (lg & inner & raised & after & T & Aft & Lv)].
    + left. exists context, e. cbn zeta. now rewrite T, O.
    + right. exists lg, [Called (get_logger_with_thread_id context) (inr lg);
                         Out (Log lg INFO started)], inner, raised, after.
      cbn zeta. now rewrite T.
  - unfold GlobalLock_lock. cbn [run]. rewrite L, run_releasing. cbn zeta.
    pose proof (run_framed env (with_lock d true) (h ++ [Locked]) U) as F.
    cbn zeta in F.
    remember (run env (framed context started body) (with_lock d true) (h ++ [Locked]))
      as r' eqn:R'.
    clear R'.
    destruct F as [(e & T & O) | (lg & inner & raised & after & T & Aft & Lv)].
    + left. exists context, e. rewrite O. cbn. now rewrite T.
    + right. exists lg, [Locked; Called (get_logger_with_thread_id context) (inr lg);
                         Out (Log lg INFO started)], inner, raised, (after ++ [Unlocked]).
      destruct raised as [e |]; cbn in Lv.
      * destruct Lv as [O (rest & R)]. rewrite O. cbn. rewrite T. cbn.
        rewrite <- app_assoc. repeat split.
        -- rewrite forallb_app, Aft. reflexivity.
        -- exists (rest ++ [Unlocked]). now rewrite R.
      * destruct Lv as [v O]. rewrite O. cbn. rewrite T. cbn.
        rewrite <- app_assoc. repeat split.
        -- rewrite forallb_app, Aft. reflexivity.
        -- now exists v.
Qed.

(** C1, as amended.  The ten methods that reach the device create their
    logger and log their entry, and run everything else inside the error
    boundary: unless the logger itself could not be created, the log of the
    run has the boundary entered once and left once, every call to a
    collaborator lies in between, and an exception that leaves the boundary is
    reported on the logger and raised again by the method.  [initialize] and
    [cleanup] enter no boundary and log nothing.  No method recovers or
    tries again: the first call that fails ends the run with its exception,
    and no call follows it. *)
Theorem error_boundary (env : environment) (c : command) (d : driver) (h : trace) :
  _lock d = false ->
  let r := run env (invoke c) d h in
  (device_facing c = true ->
     (exists context e,
         filter is_call (log r) = [Called (get_logger_with_thread_id context) (inl e)] /\
         out r = Raised e) \/
     inside_boundary (log r) (out r)) /\
  (device_facing c = false ->
     existsb is_scope_mark (log r) = false /\ existsb is_log (log r) = false) /\
  (forall e rest,
      first_failure (log r) = Some (e, rest) ->
      out r = Raised e /\ existsb is_call rest = false).
Proof.
  intros L r. subst r. split; [| split].
  - now apply device_facing_inside.
  - destruct c; cbn [device_facing]; intros D; try discriminate D.
    + cbn.
      destruct (env ResourceConfig h _) as [e | rc]; cbn; [now split |].
      destruct (env Z _ _) as [e | n]; cbn; [now split |].
      destruct (env Cli _ _) as [e | pool]; cbn; now split.
    + now split.
  - apply no_recovery_run, invoke_no_recovery.
Qed.

(** C1 at work: [save] on a device that cannot be reached.  The exception
    of the runner leaves the boundary and the method. *)
Lemma error_boundary_witness :
  let r := run unreachable_device
             (invoke (Save context0 (PyStr "ftp://backup") PyNone)) __init__ [] in
  _lock __init__ = false /\
  device_facing (Save context0 (PyStr "ftp://backup") PyNone) = true /\
  first_failure (log r) =
    Some (Exn "SessionException",
          [Out (Exit (mkLogger 1) (Some (Exn "SessionException")));
           Out (Log (mkLogger 1) ERROR (ErrorOccurred (Exn "SessionException")))]) /\
  ((exists context e,
       filter is_call (log r) = [Called (get_logger_with_thread_id context) (inl e)] /\
       out r = Raised e) \/
   inside_boundary (log r) (out r)) /\
  out r = Raised (Exn "SessionException").
Proof.
  pose proof (error_boundary unreachable_device
                (Save context0 (PyStr "ftp://backup") PyNone) __init__ [] eq_refl)
    as [Inside [_ Fails]].
  split; [reflexivity |]. split; [reflexivity |]. split; [reflexivity |].
  split; [exact (Inside eq_refl) |].
  exact (proj1 (Fails _ _ eq_refl)).
Defined.

(** C1 as the specification states it fails on both methods of the life
    cycle: [initialize] lets the exception of an unreadable resource through
    without any boundary around it, and [cleanup] enters none either. *)
Lemma initialize_and_cleanup_outside_boundary :
  (let r := run unreadable_resource (invoke (Initialize context0)) __init__ [] in
   out r = Raised (Exn "KeyError") /\ ~ inside_boundary (log r) (out r)) /\
  (let r := run obliging (invoke Cleanup) __init__ [] in
   ~ inside_boundary (log r) (out r)).
Proof.
  split; cbn.
  - split; [reflexivity |].
    intros (lg & before & body & raised & after & T & _).
    assert (I : In (Out (Enter lg))
                  (before ++ Out (Enter lg) :: body ++ Out (Exit lg raised) :: after))
      by (apply in_or_app; right; now left).
    rewrite <- T in I. cbn in I. destruct I as [I | []]. discriminate I.
  - intros (lg & before & body & raised & after & T & _).
    now destruct before.
Qed.

(** ** The lock *)

Lemma holders_app (before : list thread) (th : thread) (after : list thread) :
  holders (before ++ th :: after) =
  holders before + (if holds th then 1 else 0) + holders after.
Proof.
  unfold holders. rewrite filter_app, List.length_app. cbn.
  destruct (holds th); cbn; lia.
Qed.

Lemma step_balanced (env : environment) (p p' : prog pyval) (held : bool) d d' h h' :
  step env p d h = Some (p', d', h') ->
  balanced held p ->
  balanced (holds_after p held) p'.
Proof.
  destruct p; cbn; intros S B; try discriminate S.
  - injection S as <- _ _. apply B.
  - injection S as <- _ _. exact B.
  - destruct (_lock d); [discriminate S |]. injection S as <- _ _. apply B.
  - injection S as <- _ _. apply B.
  - injection S as <- _ _. apply B.
  - injection S as <- _ _. exact B.
Qed.

Lemma pool_step_invariant (env : environment) (s s' : pool) :
  pool_step env s s' -> lock_invariant s -> lock_invariant s'.
Proof.
  intros [d h before th after p' d' h' S] [B C]. cbn [threads instance] in B, C.
  apply Forall_app in B as [Bb Bt]. inversion Bt as [| ? ? Bth Ba]; subst.
  split; cbn [threads instance].
  - apply Forall_app. split; [exact Bb |]. constructor; [| exact Ba].
    cbn. now apply step_balanced with env d d' h h'.
  - rewrite holders_app in C |- *. cbn [holds].
    destruct (code th); cbn in S, Bth |- *; try discriminate S.
    + injection S as _ <- _. exact C.
    + injection S as _ <- _. exact C.
    + destruct (_lock d); [discriminate S |]. injection S as _ <- _. cbn.
      destruct Bth as [Hh _]. rewrite Hh in C. lia.
    + injection S as _ <- _. cbn. destruct Bth as [Hh _]. rewrite Hh in C.
      destruct (_lock d); lia.
    + injection S as _ <- _. exact C.
    + injection S as _ <- _. exact C.
Qed.

Lemma spawn_invariant (d : driver) (cmds : list command) :
  _lock d = false -> lock_invariant (spawn d cmds).
Proof.
  intros L. split; cbn.
  - induction cmds as [| c cmds IH]; cbn; constructor; [apply invoke_balanced | exact IH].
  - rewrite L. unfold holders. induction cmds as [| c cmds IH]; cbn; [reflexivity | exact IH].
Qed.

Lemma reachable_invariant (env : environment) (s s' : pool) :
  reachable env s s' -> lock_invariant s -> lock_invariant s'.
Proof.
  induction 1 as [| s1 s2 _ IH S]; intros I; [exact I |].
  apply pool_step_invariant with env s1; [exact S | now apply IH].
Qed.

Lemma one_holder (ts : list thread) :
  holders ts <= 1 ->
  forall i j a b,
    nth_error ts i = Some a -> nth_error ts j = Some b ->
    holds a = true -> holds b = true -> i = j.
Proof.
  assert (Pos : forall l k x, nth_error l k = Some x -> holds x = true -> 1 <= holders l).
  { induction l as [| y l IH]; intros [| k] x N Hx; cbn in N; try discriminate N.
    - injection N as ->. unfold holders. cbn. rewrite Hx. cbn. lia.
    - specialize (IH k x N Hx). unfold holders in *. cbn. destruct (holds y); cbn; lia. }
  induction ts as [| t ts IH]; intros Le i j a b Ni Nj Ha Hb.
  - now destruct i.
  - unfold holders in Le. cbn in Le.
    destruct i as [| i], j as [| j]; cbn in Ni, Nj; [reflexivity | | |].
    + injection Ni as ->. rewrite Ha in Le. cbn in Le.
      pose proof (Pos ts j b Nj Hb). unfold holders in *. lia.
    + injection Nj as ->. rewrite Hb in Le. cbn in Le.
      pose proof (Pos ts i a Ni Ha). unfold holders in *. lia.
    + f_equal. apply IH with a b; trivial.
      unfold holders. destruct (holds t); cbn in Le; lia.
Qed.

Lemma step_unsynchronized (env : environment) (p p' : prog pyval) d d' h h' :
  step env p d h = Some (p', d', h') ->
  unsynchronized p ->
  unsynchronized p' /\ forall held, holds_after p held = held.
Proof.
  destruct p; cbn; intros S U; try discriminate S; try contradiction;
    injection S as <- _ _; split; auto.
Qed.

Lemma reachable_stays_out (env : environment) (d : driver) (cmds : list command) (s : pool) :
  reachable env (spawn d cmds) s -> Forall2 stays_out cmds (threads s).
Proof.
  induction 1 as [| s1 s2 _ IH S].
  - cbn. induction cmds as [| c cmds IH]; cbn; constructor; [| exact IH].
    intros T. split; [reflexivity |]. now apply invoke_unsynchronized.
  - destruct S as [d1 h before th after p' d' h' S]. cbn [threads] in *.
    apply Forall2_app_inv_r in IH as (cb & cs & Fb & Fs & ->).
    inversion Fs as [| c ? ca ? Fc Fa]; subst.
    apply Forall2_app; [exact Fb |]. constructor; [| exact Fa].
    intros T. destruct (Fc T) as [Hh U]. cbn.
    destruct (step_unsynchronized env _ _ _ S U) as [U' K].
    split; [now rewrite K | exact U'].
Qed.

Lemma stays_out_nth (cmds : list command) (ts : list thread) :
  Forall2 stays_out cmds ts ->
  forall i a, nth_error ts i = Some a ->
    exists c, nth_error cmds i = Some c /\ stays_out c a.
Proof.
  induction 1 as [| c t cmds ts R _ IH]; intros [| i] a N; cbn in N; try discriminate N.
  - injection N as <-. now exists c.
  - apply (IH i a N).
Qed.

Lemma run_locked (env : environment) (c : command) (d : driver) (h : trace) :
  takes_lock (invoke c) = true ->
  let r := run env (invoke c) d h in
  if _lock d then r = Result Blocked d []
  else exists t,
      log r = Locked :: t ++ [Unlocked] /\
      existsb is_lock_event t = false /\
      _lock (self r) = false /\
      out r <> Blocked.
Proof.
  intros T.
  assert (D : device_facing c = true) by (now destruct c).
  destruct (frame c D) as (context & started & body & [E | E] & U);
    rewrite E in *; [discriminate T |].
  unfold GlobalLock_lock. cbn [run]. destruct (_lock d); [reflexivity |].
  rewrite run_releasing. cbn zeta.
  destruct (unsynchronized_run env _ U (with_lock d true) (h ++ [Locked])) as (B & _ & N).
  remember (run env (framed context started body) (with_lock d true) (h ++ [Locked])) as r'.
  exists (log r').
  destruct (out r') eqn:O; cbn; repeat split; congruence.
Qed.

(** C2.  The decorator is on [get_inventory], [restore] and [load_firmware]
    and on no other method.  A decorated method waits while the lock is held
    and, when it is free, holds it from its first step to its last; any
    other method never waits, whoever holds the lock, and never touches it.
    Among any threads that call the same instance at once, at most one holds
    the lock at any time, and the one that does is running one of the three
    decorated methods. *)
Theorem lock_discipline :
  (forall c,
      takes_lock (invoke c) = true <->
      In (method_name c) ["get_inventory"; "restore"; "load_firmware"]) /\
  (forall env c d h,
      takes_lock (invoke c) = true ->
      let r := run env (invoke c) d h in
      if _lock d then r = Result Blocked d []
      else exists t,
          log r = Locked :: t ++ [Unlocked] /\
          existsb is_lock_event t = false /\
          _lock (self r) = false /\
          out r <> Blocked) /\
  (forall env c d h,
      takes_lock (invoke c) = false ->
      let r := run env (invoke c) d h in
      out r <> Blocked /\
      _lock (self r) = _lock d /\
      existsb is_lock_event (log r) = false) /\
  (forall env d cmds s,
      _lock d = false ->
      reachable env (spawn d cmds) s ->
      forall i j a b,
        nth_error (threads s) i = Some a ->
        nth_error (threads s) j = Some b ->
        holds a = true ->
        holds b = true ->
        i = j /\
        exists c, nth_error cmds i = Some c /\ takes_lock (invoke c) = true).
Proof.
  split; [| split; [| split]].
  - intros c. split.
    + destruct c; cbn; intros H; try discriminate H; tauto.
    + destruct c; cbn; intros H; try reflexivity;
        repeat (destruct H as [H | H]; [discriminate H |]); contradiction.
  - intros env c d h T. now apply run_locked.
  - intros env c d h T. now apply unsynchronized_run, invoke_unsynchronized.
  - intros env d cmds s L R i j a b Ni Nj Ha Hb. split.
    + pose proof (@reachable_invariant env _ _ R (@spawn_invariant d cmds L)) as [_ C].
      apply one_holder with (threads s) a b; trivial.
      rewrite C. destruct (_lock (instance s)); lia.
    + destruct (@stays_out_nth cmds (threads s) (@reachable_stays_out env d cmds s R) i a Ni)
        as (c & N & S).
      exists c. split; [exact N |].
      destruct (takes_lock (invoke c)) eqn:T; [reflexivity |].
      destruct (S T) as [F _]. congruence.
Qed.

(** C2 at work: [restore], [get_inventory] and [save] called at once; once
    [get_inventory] has the lock, it is the only thread that holds. *)
Lemma lock_discipline_witness :
  _lock __init__ = false /\
  reachable obliging (spawn __init__ three_calls) inventory_running /\
  forall i a,
    nth_error (threads inventory_running) i = Some a ->
    holds a = true ->
    i = 1 /\
    exists c, nth_error three_calls i = Some c /\ takes_lock (invoke c) = true.
Proof.
  assert (R : reachable obliging (spawn __init__ three_calls) inventory_running).
  { apply reachable_step with (spawn __init__ three_calls); [apply reachable_start |].
    exact (pool_step_intro obliging __init__ []
             [Thread (invoke (Restore context0 (PyStr "ftp://backup/running.cfg")
                                PyNone PyNone)) false]
             (Thread (invoke (GetInventory context0)) false)
             [Thread (invoke (Save context0 (PyStr "ftp://backup") PyNone)) false]
             eq_refl). }
  split; [reflexivity |]. split; [exact R |].
  intros i a N H.
  exact (proj2 (proj2 (proj2 lock_discipline)) obliging __init__ three_calls
           inventory_running eq_refl R i 1 a
           (once_locked (invoke (GetInventory context0))) N eq_refl H eq_refl).
Defined.

(** ** The life cycle: [initialize] and [cleanup] *)

(** The four ways [initialize] can go, by the first call that fails. *)
Lemma initialize_runs (env : environment) (context : Context) (d : driver) (h : trace) :
  let r := run env (initialize context) d h in
  let create := create_firewall_resource_from_context SHELL_NAME SUPPORTED_OS context in
  (exists e, log r = [Called create (inl e)] /\ out r = Raised e /\ self r = d) \/
  (exists rc e,
      log r = [Called create (inr rc);
               Called (int (sessions_concurrency_limit rc)) (inl e)] /\
      out r = Raised e /\ self r = d) \/
  (exists rc n e,
      log r = [Called create (inr rc);
               Called (int (sessions_concurrency_limit rc)) (inr n);
               Called (get_cli n) (inl e)] /\
      out r = Raised e /\ self r = d) \/
  (exists rc n pool,
      log r = [Called create (inr rc);
               Called (int (sessions_concurrency_limit rc)) (inr n);
               Called (get_cli n) (inr pool)] /\
      out r = Returned (PyStr "Finished initializing") /\
      self r = with_cli d (Some pool)).
Proof.
  cbn.
  destruct (env ResourceConfig h _) as [e | rc]; cbn.
  { left. now exists e. }
  destruct (env Z _ _) as [e | n]; cbn.
  { right; left. now exists rc, e. }
  destruct (env Cli _ _) as [e | pool]; cbn.
  { right; right; left. now exists rc, n, e. }
  right; right; right. now exists rc, n, pool.
Qed.

(** C3.  [initialize] builds the resource configuration from its context,
    converts the attribute [sessions_concurrency_limit] of that configuration
    with [int], and asks [get_cli] for a pool of exactly the size that the
    conversion gave: when no call fails, the log of the run is these three
    calls; when one fails, it is a call before [get_cli] or [get_cli]
    itself, asked with that size. *)
Theorem initialize_passes_the_limit
  (env : environment) (context : Context) (d : driver) (h : trace) :
  let r := run env (initialize context) d h in
  let create := create_firewall_resource_from_context SHELL_NAME SUPPORTED_OS context in
  (exists rc n answer,
      log r = [Called create (inr rc);
               Called (int (sessions_concurrency_limit rc)) (inr n);
               Called (get_cli n) answer] /\
      (forallb answered (log r) = true -> exists pool, answer = inr pool)) \/
  (existsb creates_pool (log r) = false /\ forallb answered (log r) = false).
Proof.
  destruct (initialize_runs env context d h)
    as [(e & T & _) | [(rc & e & T & _) | [(rc & n & e & T & _) | (rc & n & pool & T & _)]]];
    cbn zeta; rewrite T.
  - right. now split.
  - right. now split.
  - left. exists rc, n, (inl e). split; [reflexivity |]. cbn. discriminate.
  - left. exists rc, n, (inr pool). split; [reflexivity |]. now exists pool.
Qed.

(** C3 at work, with the attribute of the debugging block: a limit of 1, a
    pool of size 1. *)
Lemma initialize_passes_the_limit_witness :
  let r := run obliging (initialize context0) __init__ [] in
  forallb answered (log r) = true /\
  exists rc n answer,
    log r = [Called (create_firewall_resource_from_context SHELL_NAME SUPPORTED_OS context0)
               (inr rc);
             Called (int (sessions_concurrency_limit rc)) (inr n);
             Called (get_cli n) answer] /\
    (forallb answered (log r) = true -> exists pool, answer = inr pool).
Proof.
  split; [reflexivity |].
  destruct (initialize_passes_the_limit obliging context0 __init__ []) as [H | [_ F]];
    [exact H | discriminate F].
Defined.

(** C9.  When [initialize] returns, it returns ["Finished initializing"], the
    field [_cli] holds the pool that [get_cli] has just answered with, and
    nothing else of the instance has changed; and it does return whenever
    none of its three calls fails. *)
Theorem initialize_result
  (env : environment) (context : Context) (d : driver) (h : trace) :
  let r := run env (initialize context) d h in
  (forall v,
      out r = Returned v ->
      v = PyStr "Finished initializing" /\
      exists rc n pool,
        log r = [Called (create_firewall_resource_from_context SHELL_NAME SUPPORTED_OS context)
                   (inr rc);
                 Called (int (sessions_concurrency_limit rc)) (inr n);
                 Called (get_cli n) (inr pool)] /\
        self r = {| _cli := Some pool; _lock := _lock d |}) /\
  (forallb answered (log r) = true -> out r = Returned (PyStr "Finished initializing")) /\
  (forall e, out r = Raised e -> self r = d).
Proof.
  destruct (initialize_runs env context d h)
    as [(e & T & O & S) | [(rc & e & T & O & S) | [(rc & n & e & T & O & S)
       | (rc & n & pool & T & O & S)]]];
    cbn zeta; rewrite T, O, S; (split; [| split]);
    try (intros v E; discriminate E); try (intros E; discriminate E);
    try reflexivity.
  intros v E. injection E as <-. split; [reflexivity |]. now exists rc, n, pool.
Qed.

(** C9 at work, on a platform that answers: the pool has the size of the
    attribute, and it is the one stored. *)
Lemma initialize_result_witness :
  out (run obliging (initialize context0) __init__ []) = Returned (PyStr "Finished initializing") /\
  PyStr "Finished initializing" = PyStr "Finished initializing" /\
  exists rc n pool,
    log (run obliging (initialize context0) __init__ []) =
      [Called (create_firewall_resource_from_context SHELL_NAME SUPPORTED_OS context0) (inr rc);
       Called (int (sessions_concurrency_limit rc)) (inr n);
       Called (get_cli n) (inr pool)] /\
    self (run obliging (initialize context0) __init__ []) =
      {| _cli := Some pool; _lock := _lock __init__ |}.
Proof.
  split; [reflexivity |].
  exact (proj1 (initialize_result obliging context0 __init__ [])
           (PyStr "Finished initializing") eq_refl).
Defined.

(** C10.  [cleanup] does nothing: it returns [None], leaves every field of
    the instance as it was, calls no collaborator and writes nothing, so
    that the pool held in [_cli] stays open. *)
Theorem cleanup_is_a_no_op (env : environment) (d : driver) (h : trace) :
  run env cleanup d h = Result (Returned PyNone) d [] /\
  step env cleanup d h = None.
Proof. split; reflexivity. Qed.

(** ** The plugin surface *)

(** C6.  The public methods defined in the class body are the twelve of the
    plugin surface, each once and in this order, and they are the methods
    the platform can call. *)
Theorem plugin_surface :
  public_operations =
    [ "initialize"; "get_inventory"; "run_custom_command"; "run_custom_config_command";
      "save"; "restore"; "load_firmware"; "shutdown"; "orchestration_save";
      "orchestration_restore"; "health_check"; "cleanup" ] /\
  (forall c : command, In (method_name c) public_operations) /\
  (forall name, In name public_operations -> exists c, method_name c = name).
Proof.
  split; [reflexivity |]. split.
  - destruct c; cbn; tauto.
  - intros name H. cbn in H.
    repeat (destruct H as [<- | H]);
      [ exists (Initialize context0)
      | exists (GetInventory context0)
      | exists (RunCustomCommand context0 PyNone)
      | exists (RunCustomConfigCommand context0 PyNone)
      | exists (Save context0 PyNone PyNone)
      | exists (Restore context0 PyNone PyNone PyNone)
      | exists (LoadFirmware context0 PyNone)
      | exists (Shutdown context0)
      | exists (OrchestrationSave context0 PyNone PyNone)
      | exists (OrchestrationRestore context0 PyNone PyNone)
      | exists (HealthCheck context0)
      | exists Cleanup
      | contradiction ]; reflexivity.
Qed.

(** C6 at work: [restore] is on the surface and can be called. *)
Lemma plugin_surface_witness :
  In "restore" public_operations /\ exists c, method_name c = "restore".
Proof.
  assert (H : In "restore" public_operations) by (cbn; tauto).
  split; [exact H |].
  exact (proj2 (proj2 plugin_surface) "restore" H).
Defined.

(** ** Forwarding to the runners *)

(** C7.  [run_custom_command] and [run_custom_config_command] build the
    resource configuration and the API handle from the context of the call
    and the CLI handler from these and the pool of the instance, hand the
    handler to a [RunCommandRunner], pass what [parse_custom_commands] makes
    of the command to the method of the same name of that runner, and return
    what the runner answers: a run in which no call fails is exactly this
    sequence, and a run returns only if no call failed. *)
Theorem custom_commands_are_forwarded
  (env : environment) (context : Context) (custom_command : pyval)
  (d : driver) (h : trace) :
  (let r := run env (run_custom_command context custom_command) d h in
   (forallb answered (log r) = true ->
    exists logger rc api handler runner parsed response,
      log r =
        [ Called (get_logger_with_thread_id context) (inr logger);
          Out (Log logger INFO (Text "Run custom command started"));
          Out (Enter logger);
          Called (create_firewall_resource_from_context SHELL_NAME SUPPORTED_OS context)
            (inr rc);
          Called (get_api context) (inr api);
          Called (F5CliHandler (_cli d) rc logger api) (inr handler);
          Called (RunCommandRunner logger handler) (inr runner);
          Called (parse_custom_commands custom_command) (inr parsed);
          Called (runner_run_custom_command runner parsed) (inr response);
          Out (Log logger INFO (Format "Run custom command ended with response: {}" response));
          Out (Exit logger None) ] /\
      out r = Returned response /\
      self r = d) /\
   (forall v, out r = Returned v -> forallb answered (log r) = true)) /\
  (let r := run env (run_custom_config_command context custom_command) d h in
   (forallb answered (log r) = true ->
    exists logger rc api handler runner parsed response,
      log r =
        [ Called (get_logger_with_thread_id context) (inr logger);
          Out (Log logger INFO (Text "Run custom config command started"));
          Out (Enter logger);
          Called (create_firewall_resource_from_context SHELL_NAME SUPPORTED_OS context)
            (inr rc);
          Called (get_api context) (inr api);
          Called (F5CliHandler (_cli d) rc logger api) (inr handler);
          Called (RunCommandRunner logger handler) (inr runner);
          Called (parse_custom_commands custom_command) (inr parsed);
          Called (runner_run_custom_config_command runner parsed) (inr response);
          Out (Log logger INFO
                 (Format "Run custom config command ended with response: {}" response));
          Out (Exit logger None) ] /\
      out r = Returned response /\
      self r = d) /\
   (forall v, out r = Returned v -> forallb answered (log r) = true)).
Proof.
  split; follow env;
    (split; [intros H; try discriminate H | intros v H; try discriminate H; reflexivity]);
    do 7 eexists; repeat split.
Qed.

(** C7 at work: two commands in one string, on a device that answers. *)
Lemma custom_commands_are_forwarded_witness :
  let r := run obliging (run_custom_command context0 (PyStr "show version; list ltm"))
             __init__ [] in
  forallb answered (log r) = true /\
  exists logger rc api handler runner parsed response,
    log r =
      [ Called (get_logger_with_thread_id context0) (inr logger);
        Out (Log logger INFO (Text "Run custom command started"));
        Out (Enter logger);
        Called (create_firewall_resource_from_context SHELL_NAME SUPPORTED_OS context0)
          (inr rc);
        Called (get_api context0) (inr api);
        Called (F5CliHandler (_cli __init__) rc logger api) (inr handler);
        Called (RunCommandRunner logger handler) (inr runner);
        Called (parse_custom_commands (PyStr "show version; list ltm")) (inr parsed);
        Called (runner_run_custom_command runner parsed) (inr response);
        Out (Log logger INFO (Format "Run custom command ended with response: {}" response));
        Out (Exit logger None) ] /\
    out r = Returned response /\
    self r = __init__.
Proof.
  split; [reflexivity |].
  exact (proj1 (proj1 (custom_commands_are_forwarded obliging context0
                         (PyStr "show version; list ltm") __init__ [])) eq_refl).
Defined.

(** C8.  Whatever [save], [restore] and [orchestration_save] ask of the
    configuration runner, they ask it with the arguments they were given,
    except that an empty [configuration_type] has become ["running"], an empty
    [restore_method] ["override"] and an empty [mode] ["shallow"]; and they do
    ask, once, unless a call before the runner's fails. *)
Theorem defaults_for_empty_arguments (env : environment) (context : Context)
  (d : driver) (h : trace) :
  (forall folder_path configuration_type,
      let r := run env (save context folder_path configuration_type) d h in
      delegations (log r) =
        [("save",
          [("folder_path", folder_path);
           ("configuration_type",
            if truthy configuration_type then configuration_type else PyStr "running")])] \/
      (delegations (log r) = [] /\ forallb answered (log r) = false)) /\
  (forall path configuration_type restore_method,
      _lock d = false ->
      let r := run env (restore context path configuration_type restore_method) d h in
      delegations (log r) =
        [("restore",
          [("path", path);
           ("restore_method",
            if truthy restore_method then restore_method else PyStr "override");
           ("configuration_type",
            if truthy configuration_type then configuration_type else PyStr "running")])] \/
      (delegations (log r) = [] /\ forallb answered (log r) = false)) /\
  (forall mode custom_params,
      let r := run env (orchestration_save context mode custom_params) d h in
      delegations (log r) =
        [("orchestration_save",
          [("mode", if truthy mode then mode else PyStr "shallow");
           ("custom_params", custom_params)])] \/
      (delegations (log r) = [] /\ forallb answered (log r) = false)).
Proof.
  split; [| split].
  - intros folder_path configuration_type. unfold py_or.
    follow env; try (now right); now left.
  - intros path configuration_type restore_method L. unfold restore, GlobalLock_lock.
    cbn [run]. rewrite L. unfold py_or.
    follow env; try (now right); now left.
  - intros mode custom_params. unfold py_or.
    follow env; try (now right); now left.
Qed.

(** C8 at work: [restore] called with neither a configuration type nor a
    restore method. *)
Lemma defaults_for_empty_arguments_witness :
  let r := run obliging
             (restore context0 (PyStr "ftp://backup/running.cfg") PyNone (PyStr ""))
             __init__ [] in
  _lock __init__ = false /\
  (delegations (log r) =
     [("restore",
       [("path", PyStr "ftp://backup/running.cfg");
        ("restore_method", PyStr "override");
        ("configuration_type", PyStr "running")])] \/
   (delegations (log r) = [] /\ forallb answered (log r) = false)).
Proof.
  split; [reflexivity |].
  exact (proj1 (proj2 (defaults_for_empty_arguments obliging context0 __init__ []))
           (PyStr "ftp://backup/running.cfg") PyNone (PyStr "") eq_refl).
Defined.

(** ** The shape of a dispatch *)

(** C5, as amended.  Each of the ten methods that reach the device, on a
    run in which no call fails, logs its entry, builds the resource
    configuration, the API handle and the CLI handler, builds a runner, calls
    it, logs its exit, and returns.  [initialize] and [cleanup] are not of
    that shape: they write nothing to any log, and build no API handle, no
    CLI handler and no runner. *)
Theorem dispatch_shape (env : environment) (c : command) (d : driver) (h : trace) :
  _lock d = false ->
  let r := run env (invoke c) d h in
  (device_facing c = true ->
   forallb answered (log r) = true ->
   dispatches (log r) = true /\ exists v, out r = Returned v) /\
  (device_facing c = false ->
   existsb is_log (log r) = false /\
   existsb builds_api_handle (log r) = false /\
   existsb builds_cli_handler (log r) = false /\
   existsb builds_runner (log r) = false /\
   existsb delegates (log r) = false).
Proof.
  intros L.
  destruct c; cbn [invoke device_facing];
    unfold get_inventory, restore, load_firmware, GlobalLock_lock;
    cbn [run]; rewrite ?L;
    follow env;
    (split; [intros D A; try discriminate D; try discriminate A
            | intros D; try discriminate D]);
    repeat split; eauto.
Qed.

(** C5 at work: [health_check] on a device that answers. *)
Lemma dispatch_shape_witness :
  let r := run obliging (invoke (HealthCheck context0)) __init__ [] in
  _lock __init__ = false /\
  device_facing (HealthCheck context0) = true /\
  forallb answered (log r) = true /\
  dispatches (log r) = true /\
  exists v, out r = Returned v.
Proof.
  split; [reflexivity |]. split; [reflexivity |]. split; [reflexivity |].
  exact (proj1 (dispatch_shape obliging (HealthCheck context0) __init__ [] eq_refl)
           eq_refl eq_refl).
Defined.

(** C5 as the specification states it fails on both methods of the life
    cycle, even where every call is answered: neither run has the shape of a
    dispatch. *)
Lemma initialize_and_cleanup_do_not_dispatch :
  dispatches (log (run obliging (invoke (Initialize context0)) __init__ [])) = false /\
  forallb answered (log (run obliging (invoke (Initialize context0)) __init__ [])) = true /\
  dispatches (log (run obliging (invoke Cleanup) __init__ [])) = false.
Proof. repeat split. Qed.

(** ** One pool for each instance *)


Lemma relies_on_pools (v : option Cli) (t : trace) :
  Forall (relies_on v) t ->
  created_pools t = [] /\ Forall (eq v) (handed_pools t).
Proof.
  induction 1 as [| x t R _ [IHc IHh]]; [now split |].
  unfold created_pools, handed_pools, collect in *. cbn [flat_map].
  rewrite IHc. destruct x as [X c a | o | |]; cbn; try (now split).
  destruct c; cbn in R |- *; try (now split); try contradiction.
  split; [reflexivity |]. constructor; [now symmetry | exact IHh].
Qed.

Lemma session_reuses (env : environment) (cmds : list command) :
  Forall (fun c => method_name c <> "initialize") cmds ->
  forall d h,
    let s := session env cmds d h in
    _cli (fst s) = _cli d /\ Forall (relies_on (_cli d)) (snd s).
Proof.
  induction 1 as [| c cmds N _ IH]; intros d h; [now split |].
  cbn.
  assert (R : reuses (_cli d) (invoke c)).
  { apply invoke_reuses. intros context ->. now apply N. }
  destruct (reuses_run env (invoke c) d h R) as [E F].
  destruct (IH (self (run env (invoke c) d h)) (h ++ log (run env (invoke c) d h)))
    as [E' F'].
  rewrite E in *. split; [exact E' |]. apply Forall_app. now split.
Qed.






(** * Further properties of the driver *)

(** ** The dispatch table *)

(** X1.  Each method that reaches the device asks one thing of a runner at
    most, and it is the runner method of its own name ([discover] for
    [get_inventory]); it asks nothing only when a call failed before. *)
Theorem dispatch_table (env : environment) (c : command) (d : driver) (h : trace) :
  _lock d = false ->
  device_facing c = true ->
  let r := run env (invoke c) d h in
  exists name,
    runner_method c = Some name /\
    (map fst (delegations (log r)) = [name] \/
     (delegations (log r) = [] /\ forallb answered (log r) = false)).
Proof.
  intros L D.
  destruct c; try discriminate D; cbn [invoke runner_method method_name];
    eexists; (split; [reflexivity |]);
    unfold get_inventory, restore, load_firmware, GlobalLock_lock;
    cbn [run]; rewrite ?L;
    follow env; try (now right); now left.
Qed.

Lemma dispatch_table_witness :
  _lock __init__ = false /\
  device_facing (GetInventory context0) = true /\
  exists name,
    runner_method (GetInventory context0) = Some name /\
    (map fst (delegations (log (run obliging (invoke (GetInventory context0)) __init__ [])))
       = [name] \/
     (delegations (log (run obliging (invoke (GetInventory context0)) __init__ [])) = [] /\
      forallb answered (log (run obliging (invoke (GetInventory context0)) __init__ []))
        = false)).
Proof.
  split; [reflexivity |]. split; [reflexivity |].
  exact (dispatch_table obliging (GetInventory context0) __init__ [] eq_refl eq_refl).
Defined.

(** X2.  [load_firmware] and [orchestration_restore] hand their arguments
    to the runner as they were given, empty or not: no default stands in for
    a missing path, artifact or parameter. *)
Theorem arguments_are_passed_through (env : environment) (context : Context)
  (d : driver) (h : trace) :
  (forall path,
      _lock d = false ->
      let r := run env (load_firmware context path) d h in
      delegations (log r) = [("load_firmware", [("path", path)])] \/
      (delegations (log r) = [] /\ forallb answered (log r) = false)) /\
  (forall saved_artifact_info custom_params,
      let r := run env (orchestration_restore context saved_artifact_info custom_params) d h in
      delegations (log r) =
        [("orchestration_restore",
          [("saved_artifact_info", saved_artifact_info);
           ("custom_params", custom_params)])] \/
      (delegations (log r) = [] /\ forallb answered (log r) = false)).
Proof.
  split.
  - intros path L. unfold load_firmware, GlobalLock_lock. cbn [run]. rewrite L.
    follow env; try (now right); now left.
  - intros saved_artifact_info custom_params.
    follow env; try (now right); now left.
Qed.

Lemma arguments_are_passed_through_witness :
  _lock __init__ = false /\
  (delegations (log (run obliging (load_firmware context0 (PyStr "")) __init__ [])) =
     [("load_firmware", [("path", PyStr "")])] \/
   (delegations (log (run obliging (load_firmware context0 (PyStr "")) __init__ [])) = [] /\
    forallb answered (log (run obliging (load_firmware context0 (PyStr "")) __init__ []))
      = false)).
Proof.
  split; [reflexivity |].
  exact (proj1 (arguments_are_passed_through obliging context0 __init__ [])
           (PyStr "") eq_refl).
Defined.

(** X3.  A method that reaches the device returns only after its runner has
    answered, and only once.  What it returns is that answer, except for
    [restore] and [orchestration_restore], which return [None] whatever the
    runner answered. *)
Theorem result_of_a_call (env : environment) (c : command) (d : driver) (h : trace) :
  _lock d = false ->
  device_facing c = true ->
  let r := run env (invoke c) d h in
  forall v,
    out r = Returned v ->
    exists w,
      runner_answers (log r) = [w] /\
      (In (method_name c) ["restore"; "orchestration_restore"] -> v = PyNone) /\
      (~ In (method_name c) ["restore"; "orchestration_restore"] -> v = w).
Proof.
  intros L D.
  destruct c; try discriminate D; cbn [invoke method_name];
    unfold get_inventory, restore, load_firmware, GlobalLock_lock;
    cbn [run]; rewrite ?L;
    follow env; intros v O; try discriminate O; injection O as <-;
    eexists; (split; [reflexivity |]); split; intros M; trivial;
    try (exfalso; apply M; cbn; tauto);
    cbn in M; repeat (destruct M as [M | M]; [discriminate M |]); contradiction.
Qed.

(** X3 at work: the runner reports on the restore; [restore] returns
    [None]. *)
Lemma result_of_a_call_witness :
  let r := run reporting
             (invoke (Restore context0 (PyStr "ftp://backup/running.cfg") PyNone PyNone))
             __init__ [] in
  _lock __init__ = false /\
  out r = Returned PyNone /\
  runner_answers (log r) = [PyStr "restored"] /\
  exists w,
    runner_answers (log r) = [w] /\
    (In "restore" ["restore"; "orchestration_restore"] -> PyNone = PyNone) /\
    (~ In "restore" ["restore"; "orchestration_restore"] -> PyNone = w).
Proof.
  split; [reflexivity |]. split; [reflexivity |]. split; [reflexivity |].
  exact (result_of_a_call reporting
           (Restore context0 (PyStr "ftp://backup/running.cfg") PyNone PyNone)
           __init__ [] eq_refl eq_refl eq_refl).
Defined.

(** ** The other methods, call by call *)

(** X4.  [get_inventory], when nothing fails, holds the lock from start to
    end and in between builds the per-call context, an SNMP handler over the
    CLI handler of this call, and an autoload runner over that SNMP handler;
    it returns what [discover] answers and leaves the instance as it was.  It
    returns only on such a run. *)
Theorem inventory_is_discovered (env : environment) (context : Context)
  (d : driver) (h : trace) :
  _lock d = false ->
  let r := run env (get_inventory context) d h in
  (forallb answered (log r) = true ->
   exists logger rc api handler snmp runner details,
     log r =
       Locked ::
       context_built context "Autoload command started" (_cli d) logger rc api handler ++
       [ Called (F5SnmpHandler rc logger api handler) (inr snmp);
         Called (F5FirewallAutoloadRunner logger rc snmp) (inr runner);
         Called (discover runner) (inr details);
         Out (Log logger INFO (Text "Autoload command completed"));
         Out (Exit logger None);
         Unlocked ] /\
     out r = Returned details /\
     self r = d) /\
  (forall v, out r = Returned v -> forallb answered (log r) = true).
Proof.
  intros L. destruct d as [pool lock]. cbn in L. subst lock.
  unfold get_inventory, GlobalLock_lock. cbn [run _lock].
  follow env;
    (split; [intros H; try discriminate H | intros v H; try discriminate H; reflexivity]);
    do 7 eexists; repeat split.
Qed.

Lemma inventory_is_discovered_witness :
  let r := run obliging (get_inventory context0) __init__ [] in
  _lock __init__ = false /\
  forallb answered (log r) = true /\
  exists logger rc api handler snmp runner details,
    log r =
      Locked ::
      context_built context0 "Autoload command started" (_cli __init__) logger rc api handler ++
      [ Called (F5SnmpHandler rc logger api handler) (inr snmp);
        Called (F5FirewallAutoloadRunner logger rc snmp) (inr runner);
        Called (discover runner) (inr details);
        Out (Log logger INFO (Text "Autoload command completed"));
        Out (Exit logger None);
        Unlocked ] /\
    out r = Returned details /\
    self r = __init__.
Proof.
  split; [reflexivity |]. split; [reflexivity |].
  exact (proj1 (inventory_is_discovered obliging context0 __init__ [] eq_refl) eq_refl).
Defined.

(** X5.  [load_firmware], when nothing fails, holds the lock from start to
    end, builds the per-call context, announces the loading before it builds
    the firmware runner over the CLI handler of this call, passes the path on
    and returns what the runner answers, leaving the instance as it was.  It
    returns only on such a run. *)
Theorem firmware_is_loaded (env : environment) (context : Context) (path : pyval)
  (d : driver) (h : trace) :
  _lock d = false ->
  let r := run env (load_firmware context path) d h in
  (forallb answered (log r) = true ->
   exists logger rc api handler runner response,
     log r =
       Locked ::
       context_built context "Load firmware command started" (_cli d)
         logger rc api handler ++
       [ Out (Log logger INFO (Text "Start Loading Firmware..."));
         Called (F5FirmwareRunner handler logger) (inr runner);
         Called (runner_load_firmware runner path) (inr response);
         Out (Log logger INFO
                (Format "Load firmware command completed with response: {}" response));
         Out (Exit logger None);
         Unlocked ] /\
     out r = Returned response /\
     self r = d) /\
  (forall v, out r = Returned v -> forallb answered (log r) = true).
Proof.
  intros L. destruct d as [pool lock]. cbn in L. subst lock.
  unfold load_firmware, GlobalLock_lock. cbn [run _lock].
  follow env;
    (split; [intros H; try discriminate H | intros v H; try discriminate H; reflexivity]);
    do 6 eexists; repeat split.
Qed.

Lemma firmware_is_loaded_witness :
  let r := run obliging (load_firmware context0 (PyStr "tftp://10.0.0.1/BIGIP.iso"))
             __init__ [] in
  _lock __init__ = false /\
  forallb answered (log r) = true /\
  exists logger rc api handler runner response,
    log r =
      Locked ::
      context_built context0 "Load firmware command started" (_cli __init__)
        logger rc api handler ++
      [ Out (Log logger INFO (Text "Start Loading Firmware..."));
        Called (F5FirmwareRunner handler logger) (inr runner);
        Called (runner_load_firmware runner (PyStr "tftp://10.0.0.1/BIGIP.iso"))
          (inr response);
        Out (Log logger INFO
               (Format "Load firmware command completed with response: {}" response));
        Out (Exit logger None);
        Unlocked ] /\
    out r = Returned response /\
    self r = __init__.
Proof.
  split; [reflexivity |]. split; [reflexivity |].
  exact (proj1 (firmware_is_loaded obliging context0 (PyStr "tftp://10.0.0.1/BIGIP.iso")
                  __init__ [] eq_refl) eq_refl).
Defined.

(** X6.  [shutdown] and [health_check], when nothing fails, build the
    per-call context and a state runner over it, call the runner method of
    their own name without arguments and return what it answers, leaving the
    instance as it was.  They return only on such a run. *)
Theorem state_commands_are_forwarded (env : environment) (context : Context)
  (d : driver) (h : trace) :
  (let r := run env (shutdown context) d h in
   (forallb answered (log r) = true ->
    exists logger rc api handler runner response,
      log r =
        context_built context "Shutdown command started" (_cli d) logger rc api handler ++
        [ Called (StateRunner logger api rc handler) (inr runner);
          Called (runner_shutdown runner) (inr response);
          Out (Log logger INFO
                 (Format "Shutdown command completed with response: {}" response));
          Out (Exit logger None) ] /\
      out r = Returned response /\
      self r = d) /\
   (forall v, out r = Returned v -> forallb answered (log r) = true)) /\
  (let r := run env (health_check context) d h in
   (forallb answered (log r) = true ->
    exists logger rc api handler runner response,
      log r =
        context_built context "Health check command started" (_cli d)
          logger rc api handler ++
        [ Called (StateRunner logger api rc handler) (inr runner);
          Called (runner_health_check runner) (inr response);
          Out (Log logger INFO
                 (Format "Health check command ended with response: {}" response));
          Out (Exit logger None) ] /\
      out r = Returned response /\
      self r = d) /\
   (forall v, out r = Returned v -> forallb answered (log r) = true)).
Proof.
  split; follow env;
    (split; [intros H; try discriminate H | intros v H; try discriminate H; reflexivity]);
    do 6 eexists; repeat split.
Qed.

Lemma state_commands_are_forwarded_witness :
  let r := run obliging (health_check context0) __init__ [] in
  forallb answered (log r) = true /\
  exists logger rc api handler runner response,
    log r =
      context_built context0 "Health check command started" (_cli __init__)
        logger rc api handler ++
      [ Called (StateRunner logger api rc handler) (inr runner);
        Called (runner_health_check runner) (inr response);
        Out (Log logger INFO
               (Format "Health check command ended with response: {}" response));
        Out (Exit logger None) ] /\
    out r = Returned response /\
    self r = __init__.
Proof.
  split; [reflexivity |].
  exact (proj1 (proj2 (state_commands_are_forwarded obliging context0 __init__ []))
           eq_refl).
Defined.

(** X7.  [save] and [orchestration_save], when nothing fails, build the
    per-call context and a configuration runner over it, call the runner
    method of their own name and return what it answers, leaving the instance
    as it was; [save] announces the saving before the call.  They return only
    on such a run. *)
Theorem saves_are_forwarded (env : environment) (context : Context)
  (d : driver) (h : trace) :
  (forall folder_path configuration_type,
   let r := run env (save context folder_path configuration_type) d h in
   (forallb answered (log r) = true ->
    exists logger rc api handler runner response,
      log r =
        context_built context "Save command started" (_cli d) logger rc api handler ++
        [ Called (F5ConfigurationRunner handler logger rc api) (inr runner);
          Out (Log logger INFO (Text "Saving started... "));
          Called (runner_save runner folder_path
                    (if truthy configuration_type then configuration_type
                     else PyStr "running"))
            (inr response);
          Out (Log logger INFO (Text "Save command completed"));
          Out (Exit logger None) ] /\
      out r = Returned response /\
      self r = d) /\
   (forall v, out r = Returned v -> forallb answered (log r) = true)) /\
  (forall mode custom_params,
   let r := run env (orchestration_save context mode custom_params) d h in
   (forallb answered (log r) = true ->
    exists logger rc api handler runner response,
      log r =
        context_built context "Orchestration save command started" (_cli d)
          logger rc api handler ++
        [ Called (F5ConfigurationRunner handler logger rc api) (inr runner);
          Called (runner_orchestration_save runner
                    (if truthy mode then mode else PyStr "shallow") custom_params)
            (inr response);
          Out (Log logger INFO
                 (Format "Orchestration save command completed with response: {}"
                    response));
          Out (Exit logger None) ] /\
      out r = Returned response /\
      self r = d) /\
   (forall v, out r = Returned v -> forallb answered (log r) = true)).
Proof.
  split; intros; unfold py_or; follow env;
    (split; [intros H; try discriminate H | intros v H; try discriminate H; reflexivity]);
    do 6 eexists; repeat split.
Qed.

Lemma saves_are_forwarded_witness :
  let r := run obliging (save context0 (PyStr "ftp://backup") PyNone) __init__ [] in
  forallb answered (log r) = true /\
  exists logger rc api handler runner response,
    log r =
      context_built context0 "Save command started" (_cli __init__) logger rc api handler ++
      [ Called (F5ConfigurationRunner handler logger rc api) (inr runner);
        Out (Log logger INFO (Text "Saving started... "));
        Called (runner_save runner (PyStr "ftp://backup") (PyStr "running")) (inr response);
        Out (Log logger INFO (Text "Save command completed"));
        Out (Exit logger None) ] /\
    out r = Returned response /\
    self r = __init__.
Proof.
  split; [reflexivity |].
  exact (proj1 (proj1 (saves_are_forwarded obliging context0 __init__ [])
                  (PyStr "ftp://backup") PyNone) eq_refl).
Defined.

(** X8.  [restore] and [orchestration_restore], when nothing fails, build the
    per-call context and a configuration runner over it and call the runner
    method of their own name; they return [None] and leave the instance as it
    was.  [restore] holds the lock from start to end and announces the
    restoring before the call.  They return only on such a run. *)
Theorem restores_are_forwarded (env : environment) (context : Context)
  (d : driver) (h : trace) :
  (forall path configuration_type restore_method,
   _lock d = false ->
   let r := run env (restore context path configuration_type restore_method) d h in
   (forallb answered (log r) = true ->
    exists logger rc api handler runner response,
      log r =
        Locked ::
        context_built context "Restore command started" (_cli d) logger rc api handler ++
        [ Called (F5ConfigurationRunner handler logger rc api) (inr runner);
          Out (Log logger INFO (Text "Restoring started..."));
          Called (runner_restore runner path
                    (if truthy restore_method then restore_method else PyStr "override")
                    (if truthy configuration_type then configuration_type
                     else PyStr "running"))
            (inr response);
          Out (Log logger INFO (Text "Restore command completed"));
          Out (Exit logger None);
          Unlocked ] /\
      out r = Returned PyNone /\
      self r = d) /\
   (forall v, out r = Returned v -> forallb answered (log r) = true)) /\
  (forall saved_artifact_info custom_params,
   let r := run env (orchestration_restore context saved_artifact_info custom_params) d h in
   (forallb answered (log r) = true ->
    exists logger rc api handler runner response,
      log r =
        context_built context "Orchestration restore command started" (_cli d)
          logger rc api handler ++
        [ Called (F5ConfigurationRunner handler logger rc api) (inr runner);
          Called (runner_orchestration_restore runner saved_artifact_info custom_params)
            (inr response);
          Out (Log logger INFO (Text "Orchestration restore command completed"));
          Out (Exit logger None) ] /\
      out r = Returned PyNone /\
      self r = d) /\
   (forall v, out r = Returned v -> forallb answered (log r) = true)).
Proof.
  split.
  - intros path configuration_type restore_method L.
    destruct d as [pool lock]. cbn in L. subst lock.
    unfold restore, GlobalLock_lock, py_or. cbn [run _lock].
    follow env;
      (split; [intros H; try discriminate H | intros v H; try discriminate H; reflexivity]);
      do 6 eexists; repeat split.
  - intros saved_artifact_info custom_params. follow env;
      (split; [intros H; try discriminate H | intros v H; try discriminate H; reflexivity]);
      do 6 eexists; repeat split.
Qed.

Lemma restores_are_forwarded_witness :
  let r := run reporting
             (restore context0 (PyStr "ftp://backup/running.cfg") PyNone PyNone)
             __init__ [] in
  _lock __init__ = false /\
  forallb answered (log r) = true /\
  exists logger rc api handler runner response,
    log r =
      Locked ::
      context_built context0 "Restore command started" (_cli __init__)
        logger rc api handler ++
      [ Called (F5ConfigurationRunner handler logger rc api) (inr runner);
        Out (Log logger INFO (Text "Restoring started..."));
        Called (runner_restore runner (PyStr "ftp://backup/running.cfg")
                  (PyStr "override") (PyStr "running"))
          (inr response);
        Out (Log logger INFO (Text "Restore command completed"));
        Out (Exit logger None);
        Unlocked ] /\
    out r = Returned PyNone /\
    self r = __init__.
Proof.
  split; [reflexivity |]. split; [reflexivity |].
  exact (proj1 (proj1 (restores_are_forwarded reporting context0 __init__ [])
                  (PyStr "ftp://backup/running.cfg") PyNone PyNone eq_refl) eq_refl).
Defined.

(** ** What a call leaves behind *)

(** X9.  No method but [initialize] changes the instance: called with the
    lock free, it ends, returning or raising, with every field as it found
    it. *)
Theorem calls_leave_the_instance (env : environment) (c : command) (d : driver) (h : trace) :
  _lock d = false ->
  method_name c <> "initialize" ->
  let r := run env (invoke c) d h in
  self r = d /\ out r <> Blocked.
Proof.
  intros L N. cbn zeta.
  assert (R : reuses (_cli d) (invoke c)).
  { apply invoke_reuses. intros context ->. now apply N. }
  destruct (reuses_run env (invoke c) d h R) as [E _].
  destruct (takes_lock (invoke c)) eqn:T.
  - pose proof (run_locked env c d h T) as K. cbn zeta in K. rewrite L in K.
    destruct K as (t & _ & _ & L' & B). split; [| exact B].
    destruct (self (run env (invoke c) d h)) as [pool lock], d as [pool0 lock0].
    cbn in *. congruence.
  - destruct (unsynchronized_run env (invoke c) (invoke_unsynchronized c T) d h)
      as (B & L' & _).
    split; [| exact B].
    destruct (self (run env (invoke c) d h)) as [pool lock], d as [pool0 lock0].
    cbn in *. congruence.
Qed.

(** X9 at work: a restore that fails on the device. *)
Lemma calls_leave_the_instance_witness :
  let c := Restore context0 (PyStr "ftp://backup/running.cfg") PyNone PyNone in
  let d := {| _cli := Some (mkCli 1); _lock := false |} in
  _lock d = false /\
  method_name c <> "initialize" /\
  out (run unreachable_device (invoke c) d []) = Raised (Exn "SessionException") /\
  self (run unreachable_device (invoke c) d []) = d /\
  out (run unreachable_device (invoke c) d []) <> Blocked.
Proof.
  split; [reflexivity |]. split; [discriminate |]. split; [reflexivity |].
  exact (calls_leave_the_instance unreachable_device
           (Restore context0 (PyStr "ftp://backup/running.cfg") PyNone PyNone)
           {| _cli := Some (mkCli 1); _lock := false |} [] eq_refl
           (fun E => ltac:(discriminate E))).
Defined.

(** X10.  A method that reaches the device reports nothing when it returns.
    When it raises, the error boundary has reported the exception it raises,
    once, and nothing else; unless it is the logger that could not be
    created, in which case nothing at all was logged. *)
Theorem failures_are_reported_once (env : environment) (c : command) (d : driver)
  (h : trace) :
  _lock d = false ->
  device_facing c = true ->
  let r := run env (invoke c) d h in
  match out r with
  | Returned _ => reports (log r) = []
  | Raised e =>
      reports (log r) = [e] \/
      (reports (log r) = [] /\ existsb is_log (log r) = false)
  | Blocked => False
  end.
Proof.
  intros L D.
  destruct c; try discriminate D; cbn [invoke];
    unfold get_inventory, restore, load_firmware, GlobalLock_lock;
    cbn [run]; rewrite ?L;
    follow env; try reflexivity; try (now left); now right.
Qed.

(** X10 at work: a health check on a device that cannot be reached. *)
Lemma failures_are_reported_once_witness :
  let r := run unreachable_device (invoke (HealthCheck context0)) __init__ [] in
  _lock __init__ = false /\
  device_facing (HealthCheck context0) = true /\
  out r = Raised (Exn "SessionException") /\
  match out r with
  | Returned _ => reports (log r) = []
  | Raised e =>
      reports (log r) = [e] \/
      (reports (log r) = [] /\ existsb is_log (log r) = false)
  | Blocked => False
  end.
Proof.
  split; [reflexivity |]. split; [reflexivity |]. split; [reflexivity |].
  exact (failures_are_reported_once unreachable_device (HealthCheck context0)
           __init__ [] eq_refl eq_refl).
Defined.

(** ** Calls in a row *)

Lemma no_lock_event (t : trace) :
  existsb is_lock_event t = false -> filter is_lock_event t = [].
Proof.
  induction t as [| x t IH]; cbn; [reflexivity |].
  destruct (is_lock_event x); cbn; [discriminate | exact IH].
Qed.

Lemma lock_events_of_a_call (env : environment) (c : command) (d : driver) (h : trace) :
  _lock d = false ->
  filter is_lock_event (log (run env (invoke c) d h)) = lock_events c /\
  _lock (self (run env (invoke c) d h)) = false.
Proof.
  intros L. unfold lock_events. destruct (takes_lock (invoke c)) eqn:T.
  - pose proof (run_locked env c d h T) as K. cbn zeta in K. rewrite L in K.
    destruct K as (t & E & N & L' & _). split; [| exact L'].
    rewrite E. cbn. rewrite filter_app, (no_lock_event t N). reflexivity.
  - destruct (unsynchronized_run env (invoke c) (invoke_unsynchronized c T) d h)
      as (_ & L' & N).
    split; [now apply no_lock_event | congruence].
Qed.

(** X11.  Calls made one after the other never wait for one another: each
    decorated call takes the lock and gives it back, whether it returns or
    raises, each other call leaves the lock alone, and the lock is free when
    the last call has ended. *)
Theorem calls_in_a_row_never_wait (env : environment) (cmds : list command) :
  forall (d : driver) (h : trace),
    _lock d = false ->
    let s := session env cmds d h in
    filter is_lock_event (snd s) = flat_map lock_events cmds /\
    _lock (fst s) = false.
Proof.
  induction cmds as [| c cmds IH]; intros d h L; [now split |].
  cbn.
  destruct (lock_events_of_a_call env c d h L) as [E L'].
  destruct (IH (self (run env (invoke c) d h)) (h ++ log (run env (invoke c) d h)) L')
    as [E' L''].
  split; [| exact L''].
  rewrite filter_app. cbn zeta in E'. now rewrite E, E'.
Qed.

(** X11 at work: two restores and a save on a device that cannot be
    reached. *)
Lemma calls_in_a_row_never_wait_witness :
  let cmds := [ Restore context0 (PyStr "ftp://backup/running.cfg") PyNone PyNone;
                Save context0 (PyStr "ftp://backup") PyNone;
                Restore context0 (PyStr "ftp://backup/startup.cfg") (PyStr "startup") PyNone ] in
  let s := session unreachable_device cmds __init__ [] in
  _lock __init__ = false /\
  filter is_lock_event (snd s) = [Locked; Unlocked; Locked; Unlocked] /\
  _lock (fst s) = false.
Proof.
  split; [reflexivity |].
  exact (calls_in_a_row_never_wait unreachable_device
           [ Restore context0 (PyStr "ftp://backup/running.cfg") PyNone PyNone;
             Save context0 (PyStr "ftp://backup") PyNone;
             Restore context0 (PyStr "ftp://backup/startup.cfg") (PyStr "startup") PyNone ]
           __init__ [] eq_refl).
Defined.

(** ** Calls at once *)

Lemma a_holder (ts : list thread) :
  1 <= holders ts ->
  exists before th after, ts = before ++ th :: after /\ holds th = true.
Proof.
  unfold holders. induction ts as [| t ts IH]; cbn; [lia |].
  destruct (holds t) eqn:H; intros P.
  - now exists [], t, ts.
  - destruct (IH P) as (before & th & after & -> & Hth).
    now exists (t :: before), th, after.
Qed.

Lemma an_unfinished (ts : list thread) :
  forallb (fun th => finished (code th)) ts = false ->
  exists before th after, ts = before ++ th :: after /\ finished (code th) = false.
Proof.
  induction ts as [| t ts IH]; cbn; [discriminate |].
  destruct (finished (code t)) eqn:F; cbn; intros P.
  - destruct (IH P) as (before & th & after & -> & Fth).
    now exists (t :: before), th, after.
  - now exists [], t, ts.
Qed.

Lemma no_holder (ts : list thread) :
  holders ts = 0 -> Forall (fun th => holds th = false) ts.
Proof.
  unfold holders. induction ts as [| t ts IH]; cbn; [constructor |].
  destruct (holds t) eqn:H; cbn; [discriminate |]. intros P. constructor; auto.
Qed.

(** A thread that holds the lock can go on, and so can any thread that has
    not finished while the lock is free. *)
Lemma step_enabled (env : environment) (p : prog pyval) (held : bool) (d : driver)
  (h : trace) :
  balanced held p ->
  finished p = false ->
  held = true \/ _lock d = false ->
  exists p' d' h', step env p d h = Some (p', d', h').
Proof.
  destruct p; cbn; intros B F E; try discriminate F; eauto.
  destruct B as [-> _]. destruct E as [E | ->]; [discriminate E | eauto].
Qed.

(** X12.  Calls made at once never lock each other out: whatever state they
    have reached, either some call can take a further step, or all have
    ended and the lock is free. *)
Theorem no_deadlock (env : environment) (d : driver) (cmds : list command) (s : pool) :
  _lock d = false ->
  reachable env (spawn d cmds) s ->
  (exists s', pool_step env s s') \/
  (forallb (fun th => finished (code th)) (threads s) = true /\
   _lock (instance s) = false).
Proof.
  intros L R.
  destruct (@reachable_invariant env _ _ R (@spawn_invariant d cmds L)) as [B C].
  destruct s as [d1 h1 ts]. cbn [threads instance] in *.
  destruct (_lock d1) eqn:L1.
  - left. destruct (a_holder ts) as (before & th & after & -> & H); [lia |].
    apply Forall_app in B as [_ B]. inversion B as [| ? ? Bth _]; subst.
    destruct (step_enabled env (code th) d1 h1 Bth) as (p' & d' & h' & S).
    + destruct (code th); cbn in Bth |- *; try reflexivity; congruence.
    + now left.
    + eexists. now apply pool_step_intro with (1 := S).
  - destruct (forallb (fun th => finished (code th)) ts) eqn:F; [now right | left].
    destruct (an_unfinished ts F) as (before & th & after & -> & Fth).
    apply Forall_app in B as [_ B]. inversion B as [| ? ? Bth _]; subst.
    destruct (step_enabled env (code th) d1 h1 Bth Fth) as (p' & d' & h' & S);
      [now right |].
    eexists. now apply pool_step_intro with (1 := S).
Qed.

(** X12 at work, in the pool where [get_inventory] holds the lock and
    [restore] waits for it. *)
Lemma no_deadlock_witness :
  _lock __init__ = false /\
  reachable obliging (spawn __init__ three_calls) inventory_running /\
  ((exists s', pool_step obliging inventory_running s') \/
   (forallb (fun th => finished (code th)) (threads inventory_running) = true /\
    _lock (instance inventory_running) = false)).
Proof.
  assert (R : reachable obliging (spawn __init__ three_calls) inventory_running).
  { apply reachable_step with (spawn __init__ three_calls); [apply reachable_start |].
    exact (pool_step_intro obliging __init__ []
             [Thread (invoke (Restore context0 (PyStr "ftp://backup/running.cfg")
                                PyNone PyNone)) false]
             (Thread (invoke (GetInventory context0)) false)
             [Thread (invoke (Save context0 (PyStr "ftp://backup") PyNone)) false]
             eq_refl). }
  split; [reflexivity |]. split; [exact R |].
  exact (@no_deadlock obliging __init__ three_calls inventory_running eq_refl R).
Defined.

Lemma reachable_trans (env : environment) (s1 s2 s3 : pool) :
  reachable env s1 s2 -> reachable env s2 s3 -> reachable env s1 s3.
Proof.
  intros R12 R23. induction R23 as [| s s' _ IH S]; [exact R12 |].
  now apply reachable_step with s.
Qed.

(** One thread run to its end while the others stand still. *)
Lemma thread_completes (env : environment) (before after : list thread)
  (p : prog pyval) :
  forall (held : bool) (d : driver) (h : trace),
    balanced held p ->
    _lock d = held ->
    exists p' d' h',
      reachable env (Pool d h (before ++ Thread p held :: after))
                    (Pool d' h' (before ++ Thread p' false :: after)) /\
      finished p' = true /\
      _lock d' = false.
Proof.
  induction p as [a | e | X c k IH | o k IH | k IH | k IH | k IH | v k IH];
    cbn; intros held d h B L.
  - rewrite B in *. exists (Ret a), d, h. repeat split; [constructor | exact L].
  - rewrite B in *. exists (Raise e), d, h. repeat split; [constructor | exact L].
  - destruct (IH (env X h c) held d (h ++ [Called c (env X h c)]) (B _) L)
      as (p' & d' & h' & R & F & L').
    exists p', d', h'. repeat split; trivial.
    apply reachable_trans with (2 := R).
    apply reachable_step with (1 := reachable_start _ _).
    exact (pool_step_intro env d h before (Thread (Do c k) held) after eq_refl).
  - destruct (IH held d (h ++ [Out o]) B L) as (p' & d' & h' & R & F & L').
    exists p', d', h'. repeat split; trivial.
    apply reachable_trans with (2 := R).
    apply reachable_step with (1 := reachable_start _ _).
    exact (pool_step_intro env d h before (Thread (Emit o k) held) after eq_refl).
  - destruct B as [-> B].
    destruct (IH true (with_lock d true) (h ++ [Locked]) B eq_refl)
      as (p' & d' & h' & R & F & L').
    exists p', d', h'. repeat split; trivial.
    apply reachable_trans with (2 := R).
    apply reachable_step with (1 := reachable_start _ _).
    assert (S : step env (Acquire k) d h = Some (k, with_lock d true, h ++ [Locked]))
      by (cbn; now rewrite L).
    exact (pool_step_intro env d h before (Thread (Acquire k) false) after S).
  - destruct B as [-> B].
    destruct (IH false (with_lock d false) (h ++ [Unlocked]) B eq_refl)
      as (p' & d' & h' & R & F & L').
    exists p', d', h'. repeat split; trivial.
    apply reachable_trans with (2 := R).
    apply reachable_step with (1 := reachable_start _ _).
    exact (pool_step_intro env d h before (Thread (Release k) true) after eq_refl).
  - destruct (IH (_cli d) held d h (B _) L) as (p' & d' & h' & R & F & L').
    exists p', d', h'. repeat split; trivial.
    apply reachable_trans with (2 := R).
    apply reachable_step with (1 := reachable_start _ _).
    exact (pool_step_intro env d h before (Thread (ReadCli k) held) after eq_refl).
  - destruct (IH held (with_cli d (Some v)) h B L) as (p' & d' & h' & R & F & L').
    exists p', d', h'. repeat split; trivial.
    apply reachable_trans with (2 := R).
    apply reachable_step with (1 := reachable_start _ _).
    exact (pool_step_intro env d h before (Thread (AssignCli v k) held) after eq_refl).
Qed.

(** With the lock free and nobody holding it, the threads can be run to
    their ends one after the other. *)
Lemma threads_complete (env : environment) (ts : list thread) :
  forall (done : list thread) (d : driver) (h : trace),
    Forall (fun th => balanced (holds th) (code th)) ts ->
    Forall (fun th => holds th = false) ts ->
    forallb (fun th => finished (code th)) done = true ->
    _lock d = false ->
    exists d' h' ts',
      reachable env (Pool d h (done ++ ts)) (Pool d' h' ts') /\
      forallb (fun th => finished (code th)) ts' = true /\
      _lock d' = false.
Proof.
  induction ts as [| [p held] ts IH]; intros done d h B H F L.
  - exists d, h, done. rewrite app_nil_r. repeat split; trivial. constructor.
  - inversion B as [| ? ? Bp Bts]; subst. inversion H as [| ? ? Hp Hts]; subst.
    cbn in Bp, Hp. subst held.
    destruct (thread_completes env done ts p d h Bp L) as (p' & d' & h' & R & Fp & L').
    destruct (IH (done ++ [Thread p' false]) d' h' Bts Hts) as (d2 & h2 & ts' & R' & F' & L2).
    + rewrite forallb_app, F. cbn. now rewrite Fp.
    + exact L'.
    + exists d2, h2, ts'. repeat split; trivial.
      apply reachable_trans with (1 := R). now rewrite <- app_assoc in R'.
Qed.

(** X13.  Calls made at once can always all be brought to their end:
    whatever state they have reached, there is a way on from it in which
    every call returns or raises and the lock is free again. *)
Theorem calls_can_all_end (env : environment) (d : driver) (cmds : list command)
  (s : pool) :
  _lock d = false ->
  reachable env (spawn d cmds) s ->
  exists s',
    reachable env s s' /\
    forallb (fun th => finished (code th)) (threads s') = true /\
    _lock (instance s') = false.
Proof.
  intros L R.
  destruct (@reachable_invariant env _ _ R (@spawn_invariant d cmds L)) as [B C].
  destruct s as [d1 h1 ts]. cbn [threads instance] in *.
  destruct (_lock d1) eqn:L1.
  - destruct (a_holder ts) as (before & [p held] & after & -> & H); [lia |].
    cbn in H. subst held.
    rewrite holders_app in C. cbn in C.
    pose proof B as B'.
    apply Forall_app in B' as [Bb B']. inversion B' as [| ? ? Bp Ba]; subst. cbn in Bp.
    destruct (thread_completes env before after p d1 h1 Bp L1)
      as (p' & d' & h' & R1 & Fp & L').
    destruct (@threads_complete env (before ++ Thread p' false :: after) [] d' h')
      as (d2 & h2 & ts' & R2 & F & L2); trivial.
    + apply Forall_app. split; [exact Bb |]. constructor; [| exact Ba].
      cbn. destruct p'; cbn in Fp |- *; congruence.
    + apply Forall_app. split; [apply no_holder; lia |].
      constructor; [reflexivity | apply no_holder; lia].
    + exists (Pool d2 h2 ts'). repeat split; trivial.
      now apply reachable_trans with (1 := R1).
  - destruct (@threads_complete env ts [] d1 h1)
      as (d2 & h2 & ts' & R2 & F & L2); trivial.
    + now apply no_holder.
    + now exists (Pool d2 h2 ts').
Qed.

(** X13 at work, from the pool where [get_inventory] holds the lock and
    [restore] waits for it. *)
Lemma calls_can_all_end_witness :
  _lock __init__ = false /\
  reachable obliging (spawn __init__ three_calls) inventory_running /\
  exists s',
    reachable obliging inventory_running s' /\
    forallb (fun th => finished (code th)) (threads s') = true /\
    _lock (instance s') = false.
Proof.
  assert (R : reachable obliging (spawn __init__ three_calls) inventory_running).
  { apply reachable_step with (spawn __init__ three_calls); [apply reachable_start |].
    exact (pool_step_intro obliging __init__ []
             [Thread (invoke (Restore context0 (PyStr "ftp://backup/running.cfg")
                                PyNone PyNone)) false]
             (Thread (invoke (GetInventory context0)) false)
             [Thread (invoke (Save context0 (PyStr "ftp://backup") PyNone)) false]
             eq_refl). }
  split; [reflexivity |]. split; [exact R |].
  exact (@calls_can_all_end obliging __init__ three_calls inventory_running eq_refl R).
Defined.

(** ** What a call works with *)

(** X14.  Whatever a call does, and however it ends, it does with what it
    came with: every collaborator that is given a context is given the
    context of this call, every resource configuration is built for the shell
    ["F5 BIG IP Firewall 2G"] and the systems ["BIG[ -]?IP"], and every log
    entry, handler and runner gets the one logger that was created in this
    call. *)
Theorem a_call_works_with_its_own (env : environment) (c : command) (d : driver)
  (h : trace) :
  let r := run env (invoke c) d h in
  (forall context, In context (collect context_used (log r)) -> context_of c = Some context) /\
  (forall shell, In shell (collect shell_used (log r)) ->
                 shell = ("F5 BIG IP Firewall 2G", ["BIG[ -]?IP"])) /\
  (forall lg, In lg (collect logger_used (log r)) -> collect made_logger (log r) = [lg]).
Proof.
  destruct c; cbn [invoke context_of];
    unfold get_inventory, restore, load_firmware, GlobalLock_lock;
    cbn [run]; try destruct (_lock d);
    follow env; (split; [| split]); among.
Qed.

Lemma a_call_works_with_its_own_witness :
  let r := run unreachable_device (invoke (Shutdown context0)) __init__ [] in
  In (mkLogger 1) (collect logger_used (log r)) /\
  collect made_logger (log r) = [mkLogger 1].
Proof.
  assert (I : In (mkLogger 1)
                (collect logger_used
                   (log (run unreachable_device (invoke (Shutdown context0)) __init__ []))))
    by (cbn; tauto).
  split; [exact I |].
  exact (proj2 (proj2 (a_call_works_with_its_own unreachable_device (Shutdown context0)
                         __init__ [])) (mkLogger 1) I).
Defined.

(** X15.  A runner is never asked with an empty [configuration_type],
    [restore_method] or [mode]: whatever any method hands over under one of
    these names is true in Python's sense. *)
Theorem runner_sees_no_empty_default (env : environment) (c : command) (d : driver)
  (h : trace) :
  let r := run env (invoke c) d h in
  forall name args key v,
    In (name, args) (delegations (log r)) ->
    In (key, v) args ->
    In key ["configuration_type"; "restore_method"; "mode"] ->
    truthy v = true.
Proof.
  destruct c; cbn [invoke];
    unfold get_inventory, restore, load_firmware, GlobalLock_lock, py_or;
    cbn [run]; try destruct (_lock d);
    follow env; defaulted.
Qed.

(** X15 at work: a restore asked with an empty string for both. *)
Lemma runner_sees_no_empty_default_witness :
  let r := run obliging
             (invoke (Restore context0 (PyStr "ftp://backup/running.cfg")
                        (PyStr "") (PyStr "")))
             __init__ [] in
  In ("restore",
      [("path", PyStr "ftp://backup/running.cfg");
       ("restore_method", PyStr "override");
       ("configuration_type", PyStr "running")]) (delegations (log r)) /\
  truthy (PyStr "override") = true.
Proof.
  assert (I : In ("restore",
                  [("path", PyStr "ftp://backup/running.cfg");
                   ("restore_method", PyStr "override");
                   ("configuration_type", PyStr "running")])
                (delegations
                   (log (run obliging
                           (invoke (Restore context0 (PyStr "ftp://backup/running.cfg")
                                      (PyStr "") (PyStr "")))
                           __init__ []))))
    by (cbn; tauto).
  split; [exact I |].
  exact (@runner_sees_no_empty_default obliging
           (Restore context0 (PyStr "ftp://backup/running.cfg") (PyStr "") (PyStr ""))
           __init__ [] _ _ "restore_method" (PyStr "override") I
           ltac:(cbn; tauto) ltac:(cbn; tauto)).
Defined.
